(** * Sparkify ETL ([etl.py]): shallow embedding and verified properties

    [etl.py] is a PySpark batch job.  [process_song_data] loads the song
    files, writes the [songs] and [artists] tables and registers the loaded
    data as the view [song_data_df]; [process_log_data] loads the event logs,
    keeps the [NextSong] events and derives the [users], [time] and
    [songplays] tables.

    The development has three layers:
    - [Py]: the Python side of the script: exceptions and the namespace in
      which a function body looks up the names it does not assign;
    - [Spark] and [Calendar]: the DataFrame operations and the date
      functions the script calls, on lists of rows;
    - the world a run reads from and writes to, the two pipeline functions,
      statement by statement, and [main]. *)

From Stdlib Require Import ZArith Ascii String DecimalString Lia.
From stdpp Require Import base option list strings gmap.

Open Scope Z_scope.

(** ** Python: exceptions and results *)

Module Py.

Inductive Error :=
| SyntaxError (line : nat)
| NameError (name : string)
| TypeError (what : string)
| AnalysisException (what : string).

Inductive Result (A : Type) :=
| Ok (a : A)
| Raise (e : Error).
Arguments Ok {A} a.
Arguments Raise {A} e.

#[global] Instance Result_ret : MRet Result := fun A a => Ok a.
#[global] Instance Result_bind : MBind Result := fun A B f r =>
  match r with
  | Ok a => f a
  | Raise e => Raise e
  end.
#[global] Instance Result_fmap : FMap Result := fun A B f r =>
  match r with
  | Ok a => Ok (f a)
  | Raise e => Raise e
  end.

(** Objects a name of the script can be bound to.  Only the shapes the log
    pipeline reads through a name are distinguished. *)
Inductive Obj :=
| OOpaque                          (* a module, class or function used as such *)
| OColumns (cols : list string)    (* a list of column expressions *)
| OColFn (f : Z -> Z)              (* a column function on a timestamp column *)
| OPyFn (f : Z -> Result Z).       (* a Python callable on an integer *)

Definition Namespace := list (string * Obj).

Fixpoint lookup_name (n : string) (G : Namespace) : option Obj :=
  match G with
  | [] => None
  | (k, o) :: G' => if String.eqb k n then Some o else lookup_name n G'
  end.

(** Reading a name that no scope binds raises [NameError]. *)
Definition load_name (G : Namespace) (n : string) : Result Obj :=
  match lookup_name n G with
  | Some o => Ok o
  | None => Raise (NameError n)
  end.

Definition as_columns (o : Obj) : Result (list string) :=
  match o with
  | OColumns cols => Ok cols
  | _ => Raise (TypeError "cols")
  end.

Definition as_colfn (o : Obj) : Result (Z -> Z) :=
  match o with
  | OColFn f => Ok f
  | _ => Raise (TypeError "object is not callable on a Column")
  end.

Definition call (o : Obj) (x : Z) : Result Z :=
  match o with
  | OPyFn f => f x
  | _ => Raise (TypeError "object is not callable")
  end.

(** A logical line of Python source is complete only when every bracket it
    opens is closed.  [bracket_depth] scans a line, skipping string
    literals, and returns the number of brackets left open. *)
Definition double_quote : ascii := ascii_of_nat 34.

Fixpoint scan (quote : option ascii) (depth : Z) (s : string) : Z :=
  match s with
  | EmptyString => depth
  | String c rest =>
      match quote with
      | Some q => scan (if Ascii.eqb c q then None else quote) depth rest
      | None =>
          if Ascii.eqb c double_quote || Ascii.eqb c "'"%char then scan (Some c) depth rest
          else if Ascii.eqb c "("%char || Ascii.eqb c "["%char || Ascii.eqb c "{"%char
               then scan None (depth + 1) rest
          else if Ascii.eqb c ")"%char || Ascii.eqb c "]"%char || Ascii.eqb c "}"%char
               then scan None (depth - 1) rest
          else scan None depth rest
      end
  end.

Definition bracket_depth (line : string) : Z := scan None 0 line.

End Py.

Export Py.

(** ** Spark: the DataFrame operations the script calls

    A DataFrame is the list of its rows.  Rows read under an explicit schema
    are records with one cell per declared field; the results of [select] and
    [selectExpr] are rows of named cells. *)

Module Spark.

(** *** Cells *)

(** A DoubleType cell is carried as the numeric literal it was read from:
    the script never computes with one.  A TimestampType cell is an instant
    in milliseconds since the epoch. *)
Inductive Value :=
| VNull
| VStr (s : string)
| VInt (z : Z)
| VDouble (lit : string)
| VTimestamp (ms : Z).

#[global] Instance Value_eq_dec : EqDecision Value.
Proof. solve_decision. Defined.

Definition is_null (v : Value) : bool :=
  match v with VNull => true | _ => false end.

(** Column equality [a == b] in a filter or join condition: a comparison
    with null is not true. *)
Definition sql_eq (a b : Value) : bool :=
  match a, b with
  | VNull, _ | _, VNull => false
  | _, _ => bool_decide (a = b)
  end.

(** A row of named cells. *)
Definition Row := list (string * Value).

Fixpoint get (c : string) (r : Row) : Value :=
  match r with
  | [] => VNull
  | (k, v) :: r' => if String.eqb k c then v else get c r'
  end.

(** The columns of a typed DataFrame: their names, in order, and the cell of
    a row under a name. *)
Class Frame (R : Type) := {
  columns : list string;
  col : string -> R -> Value
}.

(** *** Schemas and the JSON reader *)

Inductive DataType := StringType | IntegerType | DoubleType.

#[global] Instance DataType_eq_dec : EqDecision DataType.
Proof. solve_decision. Defined.

Record StructField := {
  name : string;
  dataType : DataType;
  nullable : bool
}.

#[global] Instance StructField_eq_dec : EqDecision StructField.
Proof. solve_decision. Defined.

Definition StructType := list StructField.

(** One JSON value of an input record; [JNested] is an array or object,
    kept as its text. *)
Inductive Json :=
| JNull
| JStr (s : string)
| JInt (z : Z)
| JFloat (lit : string)
| JBool (b : bool)
| JNested (text : string).

(** A line of an input file: a JSON object, or text that is not one. *)
Inductive JsonLine :=
| Object (o : gmap string Json)
| Garbage.

Definition decimal (z : Z) : string := NilZero.string_of_int (Z.to_int z).

Definition int_min : Z := - 2 ^ 31.
Definition int_max : Z := 2 ^ 31 - 1.

(** Conversion of a JSON value to a cell of the declared type; [None] when
    the type cannot hold the value.  IntegerType is a 32-bit signed
    integer.  An empty string under a type other than StringType reads as
    null before Spark 3 and is malformed from Spark 3 on. *)
Definition convert (spark3 : bool) (t : DataType) (j : Json) : option Value :=
  match t, j with
  | _, JNull => Some VNull
  | StringType, JStr s => Some (VStr s)
  | StringType, JInt z => Some (VStr (decimal z))
  | StringType, JFloat lit => Some (VStr lit)
  | StringType, JBool b => Some (VStr (if b then "true" else "false"))
  | StringType, JNested text => Some (VStr text)
  | IntegerType, JInt z =>
      if (int_min <=? z) && (z <=? int_max) then Some (VInt z) else None
  | IntegerType, JStr "" => if spark3 then None else Some VNull
  | IntegerType, _ => None
  | DoubleType, JInt z => Some (VDouble (decimal z))
  | DoubleType, JFloat lit => Some (VDouble lit)
  | DoubleType, JStr s =>
      if bool_decide (s ∈ ["NaN"; "Infinity"; "-Infinity"]) then Some (VDouble s)
      else if bool_decide (s = "") && negb spark3 then Some VNull
      else None
  | DoubleType, _ => None
  end.

(** What the engine leaves to its version and deployment:
    - [spark3]: whether the engine is of the 3.x line, where the permissive
      reader keeps the cells of a malformed record that did convert; before,
      it nulls the whole row;
    - [tz_offset]: the session time zone, in seconds east of UTC;
    - [partitions]: how the rows of a DataFrame are laid out in partitions,
      in order. *)
Record Engine := {
  spark3 : bool;
  tz_offset : Z;
  partitions : forall A : Type, list A -> list (list A);
  partitions_flat : forall (A : Type) (l : list A), concat (partitions A l) = l
}.

(** The cell of a record under a field.  A key the record lacks reads as
    null, whatever the [nullable] flag of the field: the reader takes a
    schema given for a file source as nullable throughout. *)
Definition cell (E : Engine) (o : gmap string Json) (f : StructField) : option Value :=
  match o !! name f with
  | None => Some VNull
  | Some j => convert (spark3 E) (dataType f) j
  end.

Definition malformed (E : Engine) (sch : StructType) (o : gmap string Json) : bool :=
  existsb (fun f => bool_decide (cell E o f = None)) sch.

Definition field_named (sch : StructType) (n : string) : option StructField :=
  find (fun f => String.eqb (name f) n) sch.

(** [spark.read.json(path, schema = sch)] on one line, in the default mode
    of the reader (PERMISSIVE; the script sets no other): every line gives
    one row.  [build] makes the typed row from the cell of each field
    name. *)
Definition read_line {R} (E : Engine) (sch : StructType)
    (build : (string -> Value) -> R) (l : JsonLine) : R :=
  match l with
  | Garbage => build (fun _ => VNull)
  | Object o =>
      if malformed E sch o && negb (spark3 E)
      then build (fun _ => VNull)
      else build (fun n =>
             match field_named sch n with
             | Some f => default VNull (cell E o f)
             | None => VNull
             end)
  end.

(** *** Relational operations *)

(** [dropDuplicates]: the first row of every group of rows with equal keys
    is kept; [dropDuplicates()] compares whole rows. *)
Fixpoint dedup {A K : Type} `{EqDecision K} (key : A -> K) (seen : list K)
    (l : list A) : list A :=
  match l with
  | [] => []
  | x :: l' =>
      if bool_decide (key x ∈ seen) then dedup key seen l'
      else x :: dedup key (key x :: seen) l'
  end.

Definition dropDuplicates {A : Type} `{EqDecision A} (df : list A) : list A :=
  dedup id [] df.

Definition dropDuplicates_on (subset : list string) (df : list Row) : list Row :=
  dedup (fun r => map (fun c => get c r) subset) [] df.

(** A column expression of [selectExpr]: [c] or [c AS a] ([as] in either
    case); [None] for anything else. *)
Fixpoint tokens (cur : string) (s : string) : list string :=
  match s with
  | EmptyString => if bool_decide (cur = "") then [] else [cur]
  | String c rest =>
      if Ascii.eqb c " "%char
      then (if bool_decide (cur = "") then [] else [cur]) ++ tokens "" rest
      else tokens (cur +:+ String c "") rest
  end.

Definition parse_expr (e : string) : option (string * string) :=
  match tokens "" e with
  | [c] => Some (c, c)
  | [c; kw; a] =>
      if bool_decide (kw ∈ ["AS"; "as"; "As"; "aS"]) then Some (c, a) else None
  | _ => None
  end.

(** [df.selectExpr(exprs)]: the expressions are resolved against the columns
    of [df] when the call is made; an unknown column is an analysis error. *)
Definition resolve {R} `{Frame R} (e : string) : Result (string * string) :=
  match parse_expr e with
  | Some (c, a) =>
      if bool_decide (c ∈ columns) then Ok (c, a)
      else Raise (AnalysisException ("cannot resolve " +:+ c))
  | None => Raise (AnalysisException ("cannot parse " +:+ e))
  end.

Definition selectExpr {R} `{Frame R} (exprs : list string) (df : list R)
    : Result (list Row) :=
  cs ← mapM resolve exprs;
  Ok (map (fun r => map (fun ca => (ca.2, col ca.1 r)) cs) df).

(** [df.select(cols)] with a list of column names. *)
Definition select {R} `{Frame R} (cols : list string) (df : list R)
    : Result (list Row) :=
  cs ← mapM (fun c => if bool_decide (c ∈ columns) then Ok c
                       else Raise (AnalysisException ("cannot resolve " +:+ c))) cols;
  Ok (map (fun r => map (fun c => (c, col c r)) cs) df).

(** [left.join(right, conditions, "left")]: every left row is paired with
    each right row the conditions hold for, and with no right row when they
    hold for none. *)
Definition join_left {L R} (on : L -> R -> bool) (left : list L) (right : list R)
    : list (L * option R) :=
  flat_map (fun l =>
    match filter (fun r => on l r = true) right with
    | [] => [(l, None)]
    | ms => map (fun r => (l, Some r)) ms
    end) left.

(** [monotonically_increasing_id()]: the partition index in the upper bits,
    the position of the row in its partition in the lower 33 bits. *)
Definition number_partition {A} (p : nat) (part : list A) : list (A * Z) :=
  imap (fun i r => (r, Z.shiftl (Z.of_nat p) 33 + Z.of_nat i)) part.

Definition monotonically_increasing_id {A} (E : Engine) (df : list A) : list (A * Z) :=
  concat (imap number_partition (partitions E A df)).

End Spark.

Export Spark.

(** *** Calendar fields of a timestamp

    The date functions of [pyspark.sql.functions] read a timestamp in the
    session time zone.  Days are counted from 1970-01-01; the conversion
    between day numbers and (year, month, day) is the usual one on the
    proleptic Gregorian calendar, over 400-year eras starting on 1 March. *)

Module Calendar.

Definition civil_from_days (days : Z) : Z * Z * Z :=
  let z := days + 719468 in
  let era := z / 146097 in
  let doe := z - era * 146097 in
  let yoe := (doe - doe / 1460 + doe / 36524 - doe / 146096) / 365 in
  let doy := doe - (365 * yoe + yoe / 4 - yoe / 100) in
  let mp := (5 * doy + 2) / 153 in
  let d := doy - (153 * mp + 2) / 5 + 1 in
  let m := if mp <? 10 then mp + 3 else mp - 9 in
  let y := yoe + era * 400 in
  (if m <=? 2 then y + 1 else y, m, d).

Definition days_from_civil (y m d : Z) : Z :=
  let y := if m <=? 2 then y - 1 else y in
  let era := y / 400 in
  let yoe := y - era * 400 in
  let doy := (153 * (if 2 <? m then m - 3 else m + 9) + 2) / 5 + d - 1 in
  let doe := yoe * 365 + yoe / 4 - yoe / 100 + doy in
  era * 146097 + doe - 719468.

Section Zone.
Variable E : Engine.

(** Seconds of local time since the epoch, the local day number and the
    second of that day. *)
Definition local_seconds (ms : Z) : Z := ms / 1000 + tz_offset E.
Definition local_day (ms : Z) : Z := local_seconds ms / 86400.

Definition year (ms : Z) : Z := (civil_from_days (local_day ms)).1.1.
Definition month (ms : Z) : Z := (civil_from_days (local_day ms)).1.2.
Definition dayofmonth (ms : Z) : Z := (civil_from_days (local_day ms)).2.
Definition hour (ms : Z) : Z := (local_seconds ms mod 86400) / 3600.

(** 1 = Sunday, ..., 7 = Saturday; 1970-01-01 was a Thursday. *)
Definition dayofweek (ms : Z) : Z := (local_day ms + 4) mod 7 + 1.

(** ISO 8601 week: the week of a day is the week of its Thursday, counted
    within the Thursday's year. *)
Definition weekofyear (ms : Z) : Z :=
  let d := local_day ms in
  let thursday := d - ((d + 3) mod 7 + 1) + 4 in
  let y := (civil_from_days thursday).1.1 in
  (thursday - days_from_civil y 1 1) / 7 + 1.

(** The instant of local midnight of the day of [ms]. *)
Definition start_of_day (ms : Z) : Z := (local_day ms * 86400 - tz_offset E) * 1000.
End Zone.

End Calendar.

(** ** The two input schemas and their rows *)

Module Song.

(** [song_schema], lines 40-51. *)
Definition song_schema : StructType := [
  {| name := "num_songs"; dataType := IntegerType; nullable := true |};
  {| name := "artist_id"; dataType := StringType; nullable := false |};
  {| name := "artist_latitude"; dataType := DoubleType; nullable := true |};
  {| name := "artist_longitude"; dataType := DoubleType; nullable := true |};
  {| name := "artist_location"; dataType := StringType; nullable := true |};
  {| name := "artist_name"; dataType := StringType; nullable := true |};
  {| name := "song_id"; dataType := StringType; nullable := true |};
  {| name := "title"; dataType := StringType; nullable := true |};
  {| name := "duration"; dataType := DoubleType; nullable := true |};
  {| name := "year"; dataType := IntegerType; nullable := false |}
].

Record row := {
  num_songs : Value;
  artist_id : Value;
  artist_latitude : Value;
  artist_longitude : Value;
  artist_location : Value;
  artist_name : Value;
  song_id : Value;
  title : Value;
  duration : Value;
  year : Value
}.

#[global] Instance row_eq_dec : EqDecision row.
Proof. solve_decision. Defined.

Definition of_cells (c : string -> Value) : row := {|
  num_songs := c "num_songs";
  artist_id := c "artist_id";
  artist_latitude := c "artist_latitude";
  artist_longitude := c "artist_longitude";
  artist_location := c "artist_location";
  artist_name := c "artist_name";
  song_id := c "song_id";
  title := c "title";
  duration := c "duration";
  year := c "year"
|}.

Definition cells (r : row) : Row := [
  ("num_songs", num_songs r);
  ("artist_id", artist_id r);
  ("artist_latitude", artist_latitude r);
  ("artist_longitude", artist_longitude r);
  ("artist_location", artist_location r);
  ("artist_name", artist_name r);
  ("song_id", song_id r);
  ("title", title r);
  ("duration", duration r);
  ("year", year r)
].

#[global] Instance frame : Frame row := {|
  columns := map name song_schema;
  col c r := get c (cells r)
|}.

End Song.

Module Log.

(** [log_schema], lines 87-107. *)
Definition log_schema : StructType := [
  {| name := "artist"; dataType := StringType; nullable := true |};
  {| name := "auth"; dataType := StringType; nullable := true |};
  {| name := "firstName"; dataType := StringType; nullable := true |};
  {| name := "gender"; dataType := StringType; nullable := true |};
  {| name := "itemInSession"; dataType := IntegerType; nullable := true |};
  {| name := "lastName"; dataType := StringType; nullable := true |};
  {| name := "length"; dataType := DoubleType; nullable := true |};
  {| name := "level"; dataType := StringType; nullable := true |};
  {| name := "location"; dataType := StringType; nullable := true |};
  {| name := "method"; dataType := StringType; nullable := true |};
  {| name := "page"; dataType := StringType; nullable := true |};
  {| name := "registration"; dataType := StringType; nullable := true |};
  {| name := "sessionId"; dataType := StringType; nullable := true |};
  {| name := "song"; dataType := StringType; nullable := true |};
  {| name := "status"; dataType := StringType; nullable := true |};
  {| name := "ts"; dataType := IntegerType; nullable := false |};
  {| name := "userAgent"; dataType := StringType; nullable := true |};
  {| name := "userId"; dataType := StringType; nullable := true |}
].

Record row := {
  artist : Value;
  auth : Value;
  firstName : Value;
  gender : Value;
  itemInSession : Value;
  lastName : Value;
  length : Value;
  level : Value;
  location : Value;
  method : Value;
  page : Value;
  registration : Value;
  sessionId : Value;
  song : Value;
  status : Value;
  ts : Value;
  userAgent : Value;
  userId : Value
}.

#[global] Instance row_eq_dec : EqDecision row.
Proof. solve_decision. Defined.

Definition of_cells (c : string -> Value) : row := {|
  artist := c "artist";
  auth := c "auth";
  firstName := c "firstName";
  gender := c "gender";
  itemInSession := c "itemInSession";
  lastName := c "lastName";
  length := c "length";
  level := c "level";
  location := c "location";
  method := c "method";
  page := c "page";
  registration := c "registration";
  sessionId := c "sessionId";
  song := c "song";
  status := c "status";
  ts := c "ts";
  userAgent := c "userAgent";
  userId := c "userId"
|}.

Definition cells (r : row) : Row := [
  ("artist", artist r);
  ("auth", auth r);
  ("firstName", firstName r);
  ("gender", gender r);
  ("itemInSession", itemInSession r);
  ("lastName", lastName r);
  ("length", length r);
  ("level", level r);
  ("location", location r);
  ("method", method r);
  ("page", page r);
  ("registration", registration r);
  ("sessionId", sessionId r);
  ("song", song r);
  ("status", status r);
  ("ts", ts r);
  ("userAgent", userAgent r);
  ("userId", userId r)
].

#[global] Instance frame : Frame row := {|
  columns := map name log_schema;
  col c r := get c (cells r)
|}.

End Log.

(** ** The log DataFrame after the derived columns (lines 125-137) *)

Module Event.

Record row := {
  log : Log.row;
  timestamp : Z;
  start_time : Z;
  hour : Z;
  day : Z;
  week : Z;
  month : Z;
  year : Z;
  weekday : Z
}.

Definition derived (r : row) : Row := [
  ("timestamp", VTimestamp (timestamp r));
  ("start_time", VTimestamp (start_time r));
  ("hour", VInt (hour r));
  ("day", VInt (day r));
  ("week", VInt (week r));
  ("month", VInt (month r));
  ("year", VInt (year r));
  ("weekday", VInt (weekday r))
].

#[global] Instance frame : Frame row := {|
  columns := map name Log.log_schema ++
    ["timestamp"; "start_time"; "hour"; "day"; "week"; "month"; "year"; "weekday"];
  col c r := get c (Log.cells (log r) ++ derived r)
|}.

End Event.

(** The result of the left join of line 154: a row of the log DataFrame and
    the row of [song_df] it matched, if any.  The columns of the unmatched
    side are null. *)
Module Joined.

Definition song_df_columns : list string := ["song_id"; "title"; "artist_id"; "artist_name"].

#[global] Instance frame : Frame (Event.row * option Row) := {|
  columns := columns (R := Event.row) ++ song_df_columns;
  col c r :=
    if bool_decide (c ∈ columns (R := Event.row)) then col c r.1
    else match r.2 with
         | Some s => get c s
         | None => VNull
         end
|}.

End Joined.

(** ** The world of a run *)

(** A written table: the columns it is partitioned by and its rows. *)
Record Output := {
  partition_by : list string;
  rows : list Row
}.

(** - [files]: for a path pattern, the lines of the files it matches;
    - [views]: the temporary views of the Spark session;
    - [written]: the parquet outputs, by path. *)
Record World := {
  files : gmap string (list JsonLine);
  views : gmap string (list Song.row);
  written : gmap string Output
}.

Definition M (A : Type) : Type := World -> World * Result A.

#[global] Instance M_ret : MRet M := fun A a w => (w, Ok a).
#[global] Instance M_bind : MBind M := fun A B f m w =>
  match m w with
  | (w', Ok a) => f a w'
  | (w', Raise e) => (w', Raise e)
  end.

Definition lift {A} (r : Result A) : M A := fun w => (w, r).

(** Reading names that the body uses as they are. *)
Definition require (G : Namespace) (names : list string) : M unit :=
  lift (mapM (load_name G) names ≫= fun _ => Ok tt).

(** [spark.read.json(path, schema = sch)]: the path is checked when the
    DataFrame is made. *)
Definition read_json {R} (E : Engine) (path : string) (sch : StructType)
    (build : (string -> Value) -> R) : M (list R) := fun w =>
  match files w !! path with
  | Some lines => (w, Ok (map (read_line E sch build) lines))
  | None => (w, Raise (AnalysisException ("Path does not exist: " +:+ path)))
  end.

(** [df.write.partitionBy(cols).parquet(path)] in the writer's default save
    mode, which refuses a path that exists. *)
Definition write_parquet (df : list Row) (cols : list string) (path : string) : M unit :=
  fun w =>
  match written w !! path with
  | Some _ => (w, Raise (AnalysisException ("path already exists: " +:+ path)))
  | None =>
      ({| files := files w; views := views w;
          written := <[path := {| partition_by := cols; rows := df |}]> (written w) |},
       Ok tt)
  end.

Definition createOrReplaceTempView (df : list Song.row) (view : string) : M unit :=
  fun w =>
  ({| files := files w; views := <[view := df]> (views w); written := written w |}, Ok tt).

(** [spark.sql("SELECT cols FROM view")]. *)
Definition sql_select (cols : list string) (view : string) : M (list Row) := fun w =>
  match views w !! view with
  | Some df => (w, select cols df)
  | None => (w, Raise (AnalysisException ("Table or view not found: " +:+ view)))
  end.

(** ** [process_song_data], lines 29-73 *)

Definition song_cols : list string := ["song_id"; "title"; "artist_id"; "year"; "duration"].

Definition artist_cols : list string :=
  ["artist_id"; "artist_name as name"; "artist_location as location";
   "artist_latitude as latitude"; "artist_longitude as longitude"].

Definition process_song_data (E : Engine) (G : Namespace)
    (input_data output_data : string) : M unit :=
  let song_data := input_data +:+ "song_data/*/*/*/*.json" in
  require G ["StructType"; "StructField"; "IntegerType"; "StringType"; "DoubleType"];;
  raw ← read_json E song_data Song.song_schema Song.of_cells;
  let df := dropDuplicates raw in
  songs_table ← lift (select song_cols df);
  write_parquet songs_table ["year"; "artist_id"] (output_data +:+ "songs/songs.parquet");;
  artists_table ← lift (selectExpr artist_cols df);
  write_parquet artists_table [] (output_data +:+ "artists/artists.parquet");;
  createOrReplaceTempView df "song_data_df".

(** ** [process_log_data], lines 76-157 *)

(** Line 113: [df.filter(df.page == "NextSong")]. *)
Definition next_song (df : list Log.row) : list Log.row :=
  filter (fun r => sql_eq (Log.page r) (VStr "NextSong") = true) df.

(** Line 116. *)
Definition users_cols : list string :=
  ["userId AS user_id"; "firstName AS first_name"; "lastName AS last_name";
   "gender"; "level"].

(** Line 118, as a function of the column list it is given. *)
Definition users_table (cols : list string) (df : list Log.row) : Result (list Row) :=
  projected ← selectExpr cols df;
  Ok (dropDuplicates projected).

(** Line 124: [lambda x: datetime.fromtimestamp(x / 1000)], evaluated on a
    row.  For an integer below 2^31 the quotient is within 2^-32 of the exact
    value, so the datetime, which has microsecond resolution, is the instant
    of [x] milliseconds; a null [x] is [None], which cannot be divided. *)
Definition get_timestamp (G : Namespace) (x : Value) : Result Z :=
  load_name G "datetime" ≫= fun _ =>
  match x with
  | VInt ms => Ok ms
  | _ => Raise (TypeError "unsupported operand type(s) for /")
  end.

(** Line 128: [lambda x: to_date(x)].  The name is read when a row is
    evaluated. *)
Definition get_datetime (G : Namespace) (x : Value) : Result Z :=
  to_date ← load_name G "to_date";
  match x with
  | VInt ms => call to_date ms
  | _ => Raise (TypeError "to_date")
  end.

(** The column functions of lines 132-137, as read from the namespace. *)
Record DateFns := {
  f_hour : Z -> Z;
  f_day : Z -> Z;
  f_weekofyear : Z -> Z;
  f_month : Z -> Z;
  f_year : Z -> Z;
  f_dayofweek : Z -> Z
}.

(** One row of [df] after line 137. *)
Definition event_row (G : Namespace) (fns : DateFns) (r : Log.row) : Result Event.row :=
  timestamp ← get_timestamp G (Log.ts r);
  start_time ← get_datetime G (Log.ts r);
  Ok {| Event.log := r;
        Event.timestamp := timestamp;
        Event.start_time := start_time;
        Event.hour := f_hour fns timestamp;
        Event.day := f_day fns timestamp;
        Event.week := f_weekofyear fns timestamp;
        Event.month := f_month fns timestamp;
        Event.year := f_year fns timestamp;
        Event.weekday := f_dayofweek fns timestamp |}.

(** Lines 139-141. *)
Definition time_cols : list string :=
  ["start_time"; "hour"; "day"; "week"; "month"; "year"; "weekday"].

Definition time_table (df : list Event.row) : Result (list Row) :=
  selected ← select time_cols df;
  Ok (dropDuplicates_on ["start_time"] selected).

(** Lines 150-154. *)
Definition conditions (l : Event.row) (s : Row) : bool :=
  sql_eq (col "song" l) (get "title" s) && sql_eq (col "artist" l) (get "artist_name" s).

Definition songplays_cols : list string :=
  ["start_time"; "userId as user_id"; "level"; "song_id"; "artist_id";
   "sessionId as session_id"; "location"; "userAgent as user_agent"; "year"; "month"].

Definition add_id (r : Row) (id : Z) : Row := r ++ [("songplay_id", VInt id)].

Definition with_songplay_id (E : Engine) (df : list Row) : list Row :=
  map (fun ri => add_id ri.1 ri.2) (monotonically_increasing_id E df).

Definition songplays_table (E : Engine) (df : list Event.row) (song_df : list Row)
    : Result (list Row) :=
  selected ← selectExpr songplays_cols (join_left conditions df song_df);
  Ok (with_songplay_id E selected).

(** The body.  [G] is the namespace in which the names that the function
    does not assign are looked up.  The statement of line 132 is taken as the
    call it opens.  The rows of a DataFrame built with a Python function are
    evaluated when the DataFrame is written. *)
Definition process_log_data (E : Engine) (G : Namespace)
    (input_data output_data : string) : M unit :=
  let log_data := input_data +:+ "log_data/*/*/*.json" in
  require G ["StructType"; "StructField"; "StringType"; "IntegerType"; "DoubleType"];;
  raw ← read_json E log_data Log.log_schema Log.of_cells;
  let df := dropDuplicates raw in
  let df := next_song df in
  user_cols ← lift (load_name G "user_cols" ≫= as_columns);
  users ← lift (users_table user_cols df);
  write_parquet users [] (output_data +:+ "users/users.parquet");;
  require G ["udf"; "TimestampType"; "col"];;
  hour ← lift (load_name G "hour" ≫= as_colfn);
  day ← lift (load_name G "day" ≫= as_colfn);
  weekofyear ← lift (load_name G "weekofyear" ≫= as_colfn);
  month ← lift (load_name G "month" ≫= as_colfn);
  year ← lift (load_name G "year" ≫= as_colfn);
  dayofweek ← lift (load_name G "dayofweek" ≫= as_colfn);
  let fns := {| f_hour := hour; f_day := day; f_weekofyear := weekofyear;
                f_month := month; f_year := year; f_dayofweek := dayofweek |} in
  let df := mapM (event_row G fns) df in
  time ← lift (df ≫= time_table);
  write_parquet time ["year"; "month"] (output_data +:+ "time/time.parquet");;
  song_df ← sql_select ["song_id"; "title"; "artist_id"; "artist_name"] "song_data_df";
  require G ["monotonically_increasing_id"];;
  songplays ← lift (df ≫= fun df => songplays_table E df song_df);
  write_parquet songplays ["year"; "month"] (output_data +:+ "songplays/songplays.parquet").

(** ** The module *)

(** The names bound at module level when [main] runs: the imports of lines
    1-7, [config] and the four functions. *)
Definition module_globals (E : Engine) : Namespace := [
  ("configparser", OOpaque); ("datetime", OOpaque); ("os", OOpaque);
  ("SparkSession", OOpaque); ("udf", OOpaque); ("col", OOpaque);
  ("year", OColFn (Calendar.year E)); ("month", OColFn (Calendar.month E));
  ("dayofmonth", OColFn (Calendar.dayofmonth E)); ("hour", OColFn (Calendar.hour E));
  ("weekofyear", OColFn (Calendar.weekofyear E)); ("date_format", OOpaque);
  ("dayofweek", OColFn (Calendar.dayofweek E));
  ("monotonically_increasing_id", OOpaque);
  ("StructType", OOpaque); ("StructField", OOpaque); ("StringType", OOpaque);
  ("IntegerType", OOpaque); ("DoubleType", OOpaque); ("DateType", OOpaque);
  ("TimestampType", OOpaque);
  ("config", OOpaque); ("create_spark_session", OOpaque);
  ("process_song_data", OOpaque); ("process_log_data", OOpaque); ("main", OOpaque)
].

(** The names [process_log_data] assigns, with its parameters: its local
    scope. *)
Definition process_log_data_locals : list string := [
  "spark"; "input_data"; "output_data"; "log_data"; "log_schema"; "df";
  "users_cols"; "users_table"; "get_timestamp"; "get_datetime"; "time_cols";
  "time_table"; "song_df"; "conditions"; "songplays_cols"; "songplays_table"
].

(** Lines 160-166, with the two configured locations as arguments. *)
Definition main (E : Engine) (G : Namespace) (input_data output_data : string) : M unit :=
  require G ["create_spark_session"; "config"; "process_song_data"];;
  process_song_data E G input_data output_data;;
  require G ["process_log_data"];;
  process_log_data E G input_data output_data.

(** The text of line 132. *)
Definition quoted (s : string) : string :=
  String double_quote s +:+ String double_quote "".

Definition line_132 : string :=
  "    df = df.withColumn(" +:+ quoted "hour" +:+ ", hour(col(" +:+ quoted "timestamp" +:+ "))".

(** Running the script: the file is compiled first, and a statement that
    leaves a bracket open is a syntax error; then the module body runs and
    calls [main]. *)
Definition etl (E : Engine) (input_data output_data : string) : M unit :=
  if bracket_depth line_132 =? 0
  then main E (module_globals E) input_data output_data
  else lift (Raise (SyntaxError 132)).

(** ** The names the module leaves unbound *)

(** Modelled from the spec: the helper [to_date] that line 128 calls and the
    repository defines nowhere.  The spec derives [start_time] as the same
    timestamp value as [timestamp] and leaves open whether it keeps full
    precision or is truncated to the date. *)
Inductive StartTime := FullPrecision | DateTruncated.

Definition to_date (E : Engine) (p : StartTime) (x : Z) : Result Z :=
  match p with
  | FullPrecision => Ok x
  | DateTruncated => Ok (Calendar.start_of_day E x)
  end.

(** The module namespace with the three names that [process_log_data] reads
    and the module does not bind. *)
Definition completed (E : Engine) (user_cols : list string) (day : Z -> Z)
    (p : StartTime) : Namespace :=
  [("user_cols", OColumns user_cols); ("day", OColFn day); ("to_date", OPyFn (to_date E p))]
  ++ module_globals E.

(** An engine that keeps every DataFrame in one partition, in UTC. *)
Definition single_partition (spark3 : bool) : Engine := {|
  spark3 := spark3;
  tz_offset := 0;
  partitions := fun A l => [l];
  partitions_flat := fun A l => app_nil_r l
|}.

(** An engine that leaves the first partition empty. *)
Definition second_partition : Engine := {|
  spark3 := true;
  tz_offset := 0;
  partitions := fun A l => [[]; l];
  partitions_flat := fun A l => app_nil_r l
|}.

(** ** Vocabulary of the properties *)


(** The cell of a column of [song_df] in a joined row. *)
Definition song_cell (c : string) (s : option Row) : Value :=
  match s with
  | Some r => get c r
  | None => VNull
  end.

(** The row [selectExpr(songplays_cols)] makes of a joined row. *)
Definition songplay (l : Event.row) (s : option Row) : Row := [
  ("start_time", VTimestamp (Event.start_time l));
  ("user_id", Log.userId (Event.log l));
  ("level", Log.level (Event.log l));
  ("song_id", song_cell "song_id" s);
  ("artist_id", song_cell "artist_id" s);
  ("session_id", Log.sessionId (Event.log l));
  ("location", Log.location (Event.log l));
  ("user_agent", Log.userAgent (Event.log l));
  ("year", VInt (Event.year l));
  ("month", VInt (Event.month l))
].

(** The row [selectExpr(users_cols)] makes of a log row. *)
Definition user_row (r : Log.row) : Row := [
  ("user_id", Log.userId r);
  ("first_name", Log.firstName r);
  ("last_name", Log.lastName r);
  ("gender", Log.gender r);
  ("level", Log.level r)
].

(** The filtered log dataset: [df] after line 113, for the lines of the
    log files. *)
Definition log_rows (E : Engine) (lines : list JsonLine) : list Log.row :=
  next_song (dropDuplicates (map (read_line E Log.log_schema Log.of_cells) lines)).

(** The published song dataset: [df] of [process_song_data] after line 54. *)
Definition song_rows (E : Engine) (lines : list JsonLine) : list Song.row :=
  dropDuplicates (map (read_line E Song.song_schema Song.of_cells) lines).

Definition add_output (path : string) (cols : list string) (df : list Row)
    (outputs : gmap string Output) : gmap string Output :=
  <[path := {| partition_by := cols; rows := df |}]> outputs.

(** What each of the three writes of [process_log_data] has put at its path
    when it succeeded, from the world [w] the function was started in. *)
Definition users_written (E : Engine) (G : Namespace) (i o : string) (w w1 : World) : Prop :=
  exists lines cols users,
    files w !! (i +:+ "log_data/*/*/*.json") = Some lines /\
    load_name G "user_cols" ≫= as_columns = Ok cols /\
    users_table cols (log_rows E lines) = Ok users /\
    written w !! (o +:+ "users/users.parquet") = None /\
    written w1 = add_output (o +:+ "users/users.parquet") [] users (written w).

Definition time_written (E : Engine) (G : Namespace) (i o : string) (w w1 w2 : World)
    (fns : DateFns) (df : list Event.row) : Prop :=
  exists lines time,
    files w !! (i +:+ "log_data/*/*/*.json") = Some lines /\
    load_name G "day" ≫= as_colfn = Ok (f_day fns) /\
    load_name G "month" ≫= as_colfn = Ok (f_month fns) /\
    load_name G "year" ≫= as_colfn = Ok (f_year fns) /\
    mapM (event_row G fns) (log_rows E lines) = Ok df /\
    time_table df = Ok time /\
    written w1 !! (o +:+ "time/time.parquet") = None /\
    written w2 = add_output (o +:+ "time/time.parquet") ["year"; "month"] time (written w1).

Definition songplays_written (E : Engine) (o : string) (w w2 w3 : World)
    (df : list Event.row) : Prop :=
  exists view song_df songplays,
    views w !! "song_data_df" = Some view /\
    select ["song_id"; "title"; "artist_id"; "artist_name"] view = Ok song_df /\
    songplays_table E df song_df = Ok songplays /\
    written w2 !! (o +:+ "songplays/songplays.parquet") = None /\
    written w3 = add_output (o +:+ "songplays/songplays.parquet") ["year"; "month"]
                   songplays (written w2).

(** The outputs a run has added, in the order of the writes: a run stops at
    the first statement that raises, so a later table is written only when
    the earlier ones were. *)
Inductive Wrote (E : Engine) (G : Namespace) (i o : string) (w : World) : World -> Prop :=
| wrote_nothing :
    Wrote E G i o w w
| wrote_users w1 :
    users_written E G i o w w1 ->
    Wrote E G i o w w1
| wrote_time w1 w2 fns df :
    users_written E G i o w w1 ->
    time_written E G i o w w1 w2 fns df ->
    Wrote E G i o w w2
| wrote_songplays w1 w2 w3 fns df :
    users_written E G i o w w1 ->
    time_written E G i o w w1 w2 fns df ->
    songplays_written E o w w2 w3 df ->
    Wrote E G i o w w3.

(** The song rows a row of [df] matches under the join conditions, and the
    songplays rows the join and the projection of line 154 make of it,
    before the identifier is added. *)
Definition matches (l : Event.row) (song_df : list Row) : list Row :=
  filter (fun s => conditions l s = true) song_df.

Definition songplays_of (l : Event.row) (song_df : list Row) : list Row :=
  match matches l song_df with
  | [] => [songplay l None]
  | ms => map (fun s => songplay l (Some s)) ms
  end.

(** ** Concrete inputs *)

(** The song and the log record of the end-to-end scenario of the spec. *)
Definition test_song (song_id : string) : JsonLine := Object (list_to_map [
  ("song_id", JStr song_id); ("title", JStr "Test Song"); ("artist_id", JStr "A1");
  ("artist_name", JStr "Test Artist"); ("year", JInt 2000); ("duration", JFloat "200.0")
]).

Definition test_log (song level : string) (ts : Z) : JsonLine := Object (list_to_map [
  ("song", JStr song); ("artist", JStr "Test Artist"); ("page", JStr "NextSong");
  ("ts", JInt ts); ("userId", JStr "1"); ("level", JStr level); ("sessionId", JInt 1);
  ("location", JStr "X"); ("userAgent", JStr "Y")
]).

(** A song record without [artist_id]. *)
Definition song_without_artist_id : JsonLine := Object (list_to_map [
  ("song_id", JStr "S1"); ("title", JStr "Test Song");
  ("artist_name", JStr "Test Artist"); ("year", JInt 2000); ("duration", JFloat "200.0")
]).

(** A song record without [year]. *)
Definition song_without_year : JsonLine := Object (list_to_map [
  ("song_id", JStr "S2"); ("title", JStr "Test Song"); ("artist_id", JStr "A1");
  ("artist_name", JStr "Test Artist"); ("duration", JFloat "200.0")
]).

(** A world with the given song and log lines under the input root [in/]
    and nothing written. *)
Definition world_of (songs logs : list JsonLine) : World := {|
  files := list_to_map [("in/song_data/*/*/*/*.json", songs); ("in/log_data/*/*/*.json", logs)];
  views := ∅;
  written := ∅
|}.

Definition scenario : World :=
  world_of [test_song "S1"] [test_log "Test Song" "free" 1000000000000].

(** The module with its three unbound names bound: [user_cols] to the list
    of line 116, [day] to [dayofmonth], [to_date] as modelled above. *)
Definition repaired (E : Engine) (p : StartTime) : Namespace :=
  completed E users_cols (Calendar.dayofmonth E) p.

(** Both pipelines, as [main] runs them, in a namespace [G]. *)
Definition run (E : Engine) (G : Namespace) (w : World) : World * Result unit :=
  main E G "in/" "out/" w.

(** ** Vocabulary of the song pipeline *)

(** The row [select(song_cols)] makes of a song row, and the row
    [selectExpr(artist_cols)] makes of it. *)
Definition songs_row (r : Song.row) : Row := [
  ("song_id", Song.song_id r);
  ("title", Song.title r);
  ("artist_id", Song.artist_id r);
  ("year", Song.year r);
  ("duration", Song.duration r)
].

Definition artists_row (r : Song.row) : Row := [
  ("artist_id", Song.artist_id r);
  ("name", Song.artist_name r);
  ("location", Song.artist_location r);
  ("latitude", Song.artist_latitude r);
  ("longitude", Song.artist_longitude r)
].

(** The world after the two writes of [process_song_data] and after the view
    is published. *)
Definition with_songs (o : string) (df : list Song.row) (w : World) : World := {|
  files := files w;
  views := views w;
  written := add_output (o +:+ "songs/songs.parquet") ["year"; "artist_id"]
               (map songs_row df) (written w)
|}.

Definition with_artists (o : string) (df : list Song.row) (w : World) : World := {|
  files := files w;
  views := views w;
  written := add_output (o +:+ "artists/artists.parquet") [] (map artists_row df) (written w)
|}.

Definition with_view (df : list Song.row) (w : World) : World := {|
  files := files w;
  views := <["song_data_df" := df]> (views w);
  written := written w
|}.

(** A log record of another page. *)
Definition login_log : JsonLine := Object (list_to_map [
  ("page", JStr "Login"); ("ts", JInt 1000); ("userId", JStr "1"); ("level", JStr "free")
]).

(** * Properties *)

(** A decidable statement that evaluates to true. *)
Ltac by_computation := apply (bool_decide_unpack _); vm_compute; exact I.

(** ** Deduplication *)

Section Dedup.
Context {A K : Type} `{EqDecision K} (key : A -> K).

Lemma dedup_sub seen l x : x ∈ dedup key seen l -> x ∈ l.
Proof.
  revert seen. induction l as [|y l IH]; intros seen; simpl; [done|].
  case_bool_decide.
  - intros Hx. right. by eapply IH.
  - rewrite elem_of_cons. intros [->|Hx]; [left|right; by eapply IH].
Qed.

Lemma dedup_fresh seen l x : x ∈ dedup key seen l -> key x ∉ seen.
Proof.
  revert seen. induction l as [|y l IH]; intros seen; simpl.
  - by intros ?%elem_of_nil.
  - case_bool_decide as Hy; [apply IH|].
    rewrite elem_of_cons. intros [->|Hx]; [done|].
    apply IH in Hx. by apply not_elem_of_cons in Hx as [_ ?].
Qed.

Lemma dedup_keys_NoDup seen l : NoDup (map key (dedup key seen l)).
Proof.
  revert seen. induction l as [|y l IH]; intros seen; simpl; [constructor|].
  case_bool_decide as Hy; [apply IH|].
  simpl. constructor; [|apply IH].
  intros (x & Hk & Hx)%list_elem_of_fmap.
  apply dedup_fresh in Hx. apply Hx. rewrite <- Hk. by left.
Qed.

Lemma dedup_covers seen l x :
  x ∈ l -> key x ∉ seen -> exists y, y ∈ dedup key seen l /\ key y = key x.
Proof.
  revert seen. induction l as [|y l IH]; intros seen; simpl.
  - by intros ?%elem_of_nil.
  - rewrite elem_of_cons. intros Hx Hfresh.
    case_bool_decide as Hy.
    + destruct Hx as [->|Hx]; [done|]. by apply IH.
    + destruct (decide (key x = key y)) as [Heq|Hne].
      * exists y. split; [by left|done].
      * destruct Hx as [->|Hx]; [done|].
        destruct (IH (key y :: seen) Hx) as (z & Hz & Hkz).
        { apply not_elem_of_cons. done. }
        exists z. split; [by right|done].
Qed.

Lemma dedup_fixed seen l :
  NoDup (map key l) -> (forall x, x ∈ l -> key x ∉ seen) -> dedup key seen l = l.
Proof.
  revert seen. induction l as [|y l IH]; intros seen; simpl; [done|].
  intros [Hy Hl]%NoDup_cons Hseen.
  rewrite bool_decide_eq_false_2 by (apply Hseen; by left).
  f_equal. apply IH; [done|].
  intros x Hx. apply not_elem_of_cons. split.
  - intros Heq. apply Hy. rewrite <- Heq. by apply list_elem_of_fmap_2.
  - apply Hseen. by right.
Qed.
End Dedup.

Lemma dropDuplicates_NoDup {A} `{EqDecision A} (df : list A) : NoDup (dropDuplicates df).
Proof.
  pose proof (dedup_keys_NoDup (@id A) [] df) as H0.
  by rewrite list_fmap_id in H0.
Qed.

Lemma dropDuplicates_same_rows {A} `{EqDecision A} (df : list A) (r : A) :
  r ∈ dropDuplicates df <-> r ∈ df.
Proof.
  split; [apply dedup_sub|].
  intros Hr. destruct (dedup_covers (@id A) [] df r Hr) as (y & Hy & Heq).
  - apply not_elem_of_nil.
  - simpl in Heq. by subst.
Qed.

(** C10.  Deduplication is idempotent: on a dataset without exact-duplicate
    rows, [dropDuplicates] returns the dataset itself.  This holds for the
    rows of every DataFrame of the script (song rows, log rows, projected
    rows). *)
Theorem dropDuplicates_idempotent {A} `{EqDecision A} (df : list A) :
  NoDup df -> dropDuplicates df = df.
Proof.
  intros Hnd. apply dedup_fixed.
  - by rewrite list_fmap_id.
  - intros x _. apply not_elem_of_nil.
Qed.

Lemma dropDuplicates_idempotent_witness :
  let df := map (read_line (single_partition true) Song.song_schema Song.of_cells)
              [test_song "S1"; test_song "S2"] in
  NoDup df /\ dropDuplicates df = df.
Proof.
  intros df.
  assert (H : NoDup df) by by_computation.
  split; [exact H|]. exact (dropDuplicates_idempotent df H).
Defined.

Lemma dropDuplicates_twice {A} `{EqDecision A} (df : list A) :
  dropDuplicates (dropDuplicates df) = dropDuplicates df.
Proof.
  apply dedup_fixed.
  - rewrite list_fmap_id. apply dropDuplicates_NoDup.
  - intros x _. apply not_elem_of_nil.
Qed.

(** ** The projections of the log pipeline, column by column *)


Lemma selectExpr_songplays_cols (joined : list (Event.row * option Row)) :
  selectExpr songplays_cols joined = Ok (map (fun p => songplay p.1 p.2) joined).
Proof. reflexivity. Qed.

(** ** What a run of [process_log_data] writes *)

Lemma append_inj_r (p a b : string) : p +:+ a = p +:+ b -> a = b.
Proof. induction p as [|c p IH]; simpl; [done|]. intros [=]. auto. Qed.

Lemma lift_run {A} (x : Result A) (w w' : World) (r : Result A) :
  lift x w = (w', r) -> w' = w /\ r = x.
Proof. by intros [= <- <-]. Qed.

Lemma require_run G names (w w' : World) r :
  require G names w = (w', r) -> w' = w.
Proof. by intros [? _]%lift_run. Qed.

Lemma read_json_run {R} E path sch (build : (string -> Value) -> R) w w' r :
  read_json E path sch build w = (w', r) ->
  w' = w /\
  forall df, r = Ok df ->
    exists lines, files w !! path = Some lines /\ df = map (read_line E sch build) lines.
Proof.
  unfold read_json. destruct (files w !! path) as [lines|]; intros [= <- <-].
  - split; [done|]. intros df [= <-]. by exists lines.
  - split; [done|]. by intros df [=].
Qed.

Lemma sql_select_run cols view w w' r :
  sql_select cols view w = (w', r) -> w' = w.
Proof. unfold sql_select. by destruct (views w !! view); intros [= <- <-]. Qed.

Lemma write_parquet_raise df cols path w w' e :
  write_parquet df cols path w = (w', Raise e) -> w' = w.
Proof. unfold write_parquet. by destruct (written w !! path); intros [= <-]. Qed.

Lemma write_parquet_ok df cols path w w' a :
  write_parquet df cols path w = (w', Ok a) ->
  written w !! path = None /\ files w' = files w /\ views w' = views w /\
  written w' = add_output path cols df (written w).
Proof. unfold write_parquet. by destruct (written w !! path); intros [= <-]. Qed.

Lemma bind_run {A B} (m : M A) (k : A -> M B) (w w' : World) (r : Result B) :
  (m ≫= k) w = (w', r) ->
  (exists e, m w = (w', Raise e) /\ r = Raise e) \/
  (exists w1 a, m w = (w1, Ok a) /\ k a w1 = (w', r)).
Proof.
  unfold mbind, M_bind. destruct (m w) as [w1 [a|e]]; intros H.
  - right. eauto.
  - left. injection H as <- <-. eauto.
Qed.

Tactic Notation "run_step" hyp(H) "as" ident(w1) ident(a) ident(Hm) :=
  apply bind_run in H as [(? & Hm & ->) | (w1 & a & Hm & H)].

Lemma sql_select_ok cols view w w' df :
  sql_select cols view w = (w', Ok df) ->
  w' = w /\ exists rows, views w !! view = Some rows /\ select cols rows = Ok df.
Proof.
  unfold sql_select. destruct (views w !! view) as [rows|]; intros [= <- Hs]; eauto.
Qed.

Lemma process_log_data_wrote E G i o w w' r :
  process_log_data E G i o w = (w', r) ->
  files w' = files w /\ views w' = views w /\ Wrote E G i o w w'.
Proof.
  unfold process_log_data. intros H.
  assert (Hnone : forall w0 : World, w0 = w ->
            files w0 = files w /\ views w0 = views w /\ Wrote E G i o w w0).
  { intros ? ->. repeat split. constructor. }
  run_step H as w0 u Hm; apply require_run in Hm; [by apply Hnone|subst w0].
  run_step H as w0 raw Hm; apply read_json_run in Hm as [Hm Hraw]; [by apply Hnone|subst w0].
  destruct (Hraw _ eq_refl) as (lines & Hlines & ->). clear Hraw.
  run_step H as w0 cols Hcols; apply lift_run in Hcols as [Hm Hcols];
    [by apply Hnone|subst w0].
  run_step H as w0 users Husers; apply lift_run in Husers as [Hm Husers];
    [by apply Hnone|subst w0].
  run_step H as w1 u1 Hwu; [apply write_parquet_raise in Hwu; by apply Hnone|].
  apply write_parquet_ok in Hwu as (Hfree1 & Hf1 & Hv1 & Hw1).
  assert (Hu : users_written E G i o w w1).
  { exists lines, cols, users. done. }
  assert (Hone : forall w0 : World, w0 = w1 ->
            files w0 = files w /\ views w0 = views w /\ Wrote E G i o w w0).
  { intros ? ->. repeat split; [done..|]. by eapply wrote_users. }
  clear Hnone.
  run_step H as w0 u2 Hm; apply require_run in Hm; [by apply Hone|subst w0].
  run_step H as w0 hour Hm; apply lift_run in Hm as [Hm _]; [by apply Hone|subst w0].
  run_step H as w0 day Hday; apply lift_run in Hday as [Hm Hday]; [by apply Hone|subst w0].
  run_step H as w0 weekofyear Hm; apply lift_run in Hm as [Hm _]; [by apply Hone|subst w0].
  run_step H as w0 month Hmonth; apply lift_run in Hmonth as [Hm Hmonth];
    [by apply Hone|subst w0].
  run_step H as w0 year Hyear; apply lift_run in Hyear as [Hm Hyear];
    [by apply Hone|subst w0].
  run_step H as w0 dayofweek Hm; apply lift_run in Hm as [Hm _]; [by apply Hone|subst w0].
  set (fns := {| f_hour := hour; f_day := day; f_weekofyear := weekofyear;
                 f_month := month; f_year := year; f_dayofweek := dayofweek |}) in *.
  run_step H as w0 time Htime; apply lift_run in Htime as [Hm Htime];
    [by apply Hone|subst w0].
  destruct (mapM (event_row G fns) _) as [df|e] eqn:Hdf; [|done]. simpl in Htime.
  run_step H as w2 u3 Hwt; [apply write_parquet_raise in Hwt; by apply Hone|].
  apply write_parquet_ok in Hwt as (Hfree2 & Hf2 & Hv2 & Hw2).
  assert (Ht : time_written E G i o w w1 w2 fns df).
  { exists lines, time. done. }
  assert (Htwo : forall w0 : World, w0 = w2 ->
            files w0 = files w /\ views w0 = views w /\ Wrote E G i o w w0).
  { intros ? ->. repeat split; [congruence..|]. by eapply wrote_time. }
  clear Hone.
  run_step H as w0 song_df Hsql.
  { unfold sql_select in Hsql. apply Htwo.
    by destruct (views w2 !! "song_data_df"); injection Hsql as <-. }
  apply sql_select_ok in Hsql as (-> & view & Hview & Hsong).
  run_step H as w0 u4 Hm; apply require_run in Hm; [by apply Htwo|subst w0].
  run_step H as w0 songplays Hsp; apply lift_run in Hsp as [Hm Hsp];
    [by apply Htwo|subst w0].
  simpl in Hsp.
  destruct r as [[]|e].
  - apply write_parquet_ok in H as (Hfree3 & Hf3 & Hv3 & Hw3).
    repeat split; [congruence..|].
    eapply wrote_songplays; [done..|].
    exists view, song_df, songplays.
    split; [by rewrite <- Hv1, <- Hv2|]. done.
  - apply write_parquet_raise in H. by apply Htwo.
Qed.

(** ** The program as written *)

Lemma process_log_data_raises E i o w :
  process_log_data E (module_globals E) i o w =
    (w, Raise (match files w !! (i +:+ "log_data/*/*/*.json") with
               | Some _ => NameError "user_cols"
               | None => AnalysisException
                           ("Path does not exist: " +:+ i +:+ "log_data/*/*/*.json")
               end)).
Proof.
  unfold process_log_data, mbind at 1 2, M_bind, read_json.
  change (require _ _ w) with (w, Ok tt). cbv beta iota.
  destruct (files w !! _) as [lines|]; [|done].
  unfold mbind at 1, M_bind.
  by change (lift (load_name (module_globals E) "user_cols" ≫= as_columns) w)
    with (w, @Raise (list string) (NameError "user_cols")).
Qed.

(** C3.  As written, [process_log_data] raises on every input and leaves the
    world as it found it, so none of the users, time and songplays outputs is
    written: with the input path present the error is the [NameError] for
    [user_cols] at line 118, as the function binds [users_cols] and nothing
    binds [user_cols]; nothing binds [to_date] or [day] either, and the
    statement of line 132 leaves one bracket open, so that the script as a
    whole is rejected before it runs. *)
Theorem process_log_data_writes_nothing E i o w :
  process_log_data E (module_globals E) i o w =
    (w, Raise (match files w !! (i +:+ "log_data/*/*/*.json") with
               | Some _ => NameError "user_cols"
               | None => AnalysisException
                           ("Path does not exist: " +:+ i +:+ "log_data/*/*/*.json")
               end))
  /\ (("users_cols" ∈ process_log_data_locals)
      /\ ("user_cols" ∉ process_log_data_locals)
      /\ load_name (module_globals E) "user_cols" = Raise (NameError "user_cols"))
  /\ (("to_date" ∉ process_log_data_locals)
      /\ load_name (module_globals E) "to_date" = Raise (NameError "to_date"))
  /\ bracket_depth line_132 = 1
  /\ (("day" ∉ process_log_data_locals)
      /\ load_name (module_globals E) "day" = Raise (NameError "day"))
  /\ etl E i o w = (w, Raise (SyntaxError 132)).
Proof.
  split; [apply process_log_data_raises|].
  repeat match goal with |- _ /\ _ => split end;
    first [reflexivity | by_computation].
Qed.

(** ** The declared types of the schemas *)

Lemma convert_integer_overflow (spark3 : bool) (v : Z) :
  2 ^ 31 <= v -> convert spark3 IntegerType (JInt v) = None.
Proof.
  intros Hv. simpl. unfold int_max.
  destruct (v <=? 2 ^ 31 - 1) eqn:Hle; [lia|].
  by rewrite andb_false_r.
Qed.

Lemma read_line_object {R} E sch (build : (string -> Value) -> R) o :
  read_line E sch build (Object o) =
    if malformed E sch o && negb (spark3 E)
    then build (fun _ => VNull)
    else build (fun n => match field_named sch n with
                         | Some f => default VNull (cell E o f)
                         | None => VNull
                         end).
Proof. reflexivity. Qed.

(** A key the record lacks reads as a null cell, also under a field the
    schema declares non-nullable. *)
Lemma missing_artist_id_reads_null E (o : gmap string Json) :
  o !! "artist_id" = None ->
  Song.artist_id (read_line E Song.song_schema Song.of_cells (Object o)) = VNull.
Proof.
  intros Ho. rewrite read_line_object.
  destruct (_ && _); [done|]. simpl. unfold cell. simpl. by rewrite Ho.
Qed.

Lemma missing_year_reads_null E (o : gmap string Json) :
  o !! "year" = None ->
  Song.year (read_line E Song.song_schema Song.of_cells (Object o)) = VNull.
Proof.
  intros Ho. rewrite read_line_object.
  destruct (_ && _); [done|]. simpl. unfold cell. simpl. by rewrite Ho.
Qed.

(** C4.  [log_schema] declares [ts] as IntegerType, a 32-bit integer, so a
    record whose [ts] is 2^31 milliseconds or more (every instant from
    1970-01-25 on) is not loaded with that value: its [ts] cell is null, and
    where the reader nulls the whole row of such a record the row does not
    pass the [NextSong] filter. *)
Theorem ts_out_of_range E (o : gmap string Json) (v : Z) :
  o !! "ts" = Some (JInt v) ->
  2 ^ 31 <= v ->
  field_named Log.log_schema "ts"
    = Some {| name := "ts"; dataType := IntegerType; nullable := false |}
  /\ convert (spark3 E) IntegerType (JInt v) = None
  /\ Log.ts (read_line E Log.log_schema Log.of_cells (Object o)) = VNull
  /\ (spark3 E = true \/ log_rows E [Object o] = [])
  /\ Calendar.civil_from_days (2 ^ 31 / 86400000) = (1970, 1, 25).
Proof.
  intros Ho Hv.
  pose proof (convert_integer_overflow (spark3 E) v Hv) as Hconv.
  assert (Hcell : cell E o {| name := "ts"; dataType := IntegerType; nullable := false |} = None).
  { unfold cell. simpl. by rewrite Ho. }
  assert (Hbad : malformed E Log.log_schema o = true).
  { unfold malformed. apply existsb_exists.
    exists {| name := "ts"; dataType := IntegerType; nullable := false |}. split.
    - apply list_elem_of_In. by_computation.
    - by apply bool_decide_eq_true. }
  repeat match goal with |- _ /\ _ => split end; try done.
  - rewrite read_line_object, Hbad. destruct (spark3 E); simpl; [|done].
    by rewrite Hcell.
  - destruct (spark3 E) eqn:Hp; [by left|right].
    unfold log_rows. rewrite (list_fmap_singleton (read_line _ _ _)).
    rewrite read_line_object, Hbad, Hp. reflexivity.
Qed.

Lemma ts_out_of_range_witness :
  let o : gmap string Json :=
    list_to_map [("page", JStr "NextSong"); ("ts", JInt 1000000000000)] in
  o !! "ts" = Some (JInt 1000000000000) /\
  2 ^ 31 <= 1000000000000 /\
  Log.ts (read_line (single_partition false) Log.log_schema Log.of_cells (Object o)) = VNull.
Proof.
  intros o.
  assert (H1 : o !! "ts" = Some (JInt 1000000000000)) by reflexivity.
  assert (H2 : 2 ^ 31 <= 1000000000000) by lia.
  split; [exact H1|]. split; [exact H2|].
  exact (proj1 (proj2 (proj2 (ts_out_of_range (single_partition false) o _ H1 H2)))).
Defined.

(** C9.  A song record without [artist_id] and one without [year] are
    loaded without any error: [process_song_data] returns normally, and the
    published dataset and the songs table hold a row with a null
    [artist_id] and a row with a null [year], although [song_schema]
    declares both fields non-nullable. *)
Theorem required_song_fields_load_as_null E :
  let w := world_of [song_without_artist_id; song_without_year] [] in
  let w' := (process_song_data E (module_globals E) "in/" "out/" w).1 in
  (process_song_data E (module_globals E) "in/" "out/" w).2 = Ok tt
  /\ map nullable (omap (field_named Song.song_schema) ["artist_id"; "year"]) = [false; false]
  /\ map (fun r => (Song.artist_id r, Song.year r)) <$> views w' !! "song_data_df"
     = Some [(VNull, VInt 2000); (VStr "A1", VNull)]
  /\ map (fun r => (get "artist_id" r, get "year" r)) ∘ rows
       <$> written w' !! "out/songs/songs.parquet"
     = Some [(VNull, VInt 2000); (VStr "A1", VNull)].
Proof. vm_compute. done. Qed.

(** C2.  On the end-to-end scenario of the spec the script as written
    raises the [NameError] of line 118 and writes no songplays table.  The
    timestamp of the scenario, 1000000000000, is moreover out of the range of
    the declared type of [ts]: also with the unbound names bound, the run
    either raises when the timestamp is derived from the null [ts], or, where
    the reader nulls the whole row, writes an empty songplays table. *)
Theorem scenario_raises E :
  (run E (module_globals E) scenario).2 = Raise (NameError "user_cols")
  /\ written (run E (module_globals E) scenario).1 !! "out/songplays/songplays.parquet" = None
  /\ etl E "in/" "out/" scenario = (scenario, Raise (SyntaxError 132))
  /\ convert (spark3 E) IntegerType (JInt 1000000000000) = None
  /\ (run (single_partition true) (repaired (single_partition true) FullPrecision) scenario).2
     = Raise (TypeError "unsupported operand type(s) for /")
  /\ rows <$> written (run (single_partition false)
                         (repaired (single_partition false) FullPrecision) scenario).1
              !! "out/songplays/songplays.parquet"
     = Some [].
Proof. vm_compute. done. Qed.

(** With a timestamp in the range of IntegerType and the unbound names
    bound, the scenario gives the songplays row the spec describes. *)
Lemma scenario_in_range :
  let E := single_partition true in
  let w := world_of [test_song "S1"] [test_log "Test Song" "free" 1000000000] in
  (run E (repaired E FullPrecision) w).2 = Ok tt /\
  rows <$> written (run E (repaired E FullPrecision) w).1 !! "out/songplays/songplays.parquet"
  = Some [[("start_time", VTimestamp 1000000000); ("user_id", VStr "1");
           ("level", VStr "free"); ("song_id", VStr "S1"); ("artist_id", VStr "A1");
           ("session_id", VStr "1"); ("location", VStr "X"); ("user_agent", VStr "Y");
           ("year", VInt 1970); ("month", VInt 1); ("songplay_id", VInt 0)]].
Proof. vm_compute. done. Qed.

(** C5.  On two plays of one user that differ in [level], the function as
    written raises at line 118, where it reads [user_cols], and writes no
    users table; the list bound at line 116 under the name [users_cols]
    would give the table the claim describes, with both rows. *)
Theorem users_table_not_written E :
  let lines := [test_log "Test Song" "free" 1000; test_log "Test Song" "paid" 2000] in
  let w := world_of [] lines in
  process_log_data E (module_globals E) "in/" "out/" w = (w, Raise (NameError "user_cols"))
  /\ written w !! "out/users/users.parquet" = None
  /\ users_table users_cols (log_rows E lines)
     = Ok [[("user_id", VStr "1"); ("first_name", VNull); ("last_name", VNull);
            ("gender", VNull); ("level", VStr "free")];
           [("user_id", VStr "1"); ("first_name", VNull); ("last_name", VNull);
            ("gender", VNull); ("level", VStr "paid")]].
Proof. vm_compute. done. Qed.

(** The users table under the column list of line 116: the projection of
    the filtered rows, without exact duplicates. *)
Lemma users_table_users_cols (df : list Log.row) :
  users_table users_cols df = Ok (dropDuplicates (map user_row df)).
Proof. reflexivity. Qed.

(** C6.  On a play whose song matches no song record, the script as
    written raises at line 118 and writes no songplays table; with the
    unbound names bound, the join of line 154 gives the row with null
    [song_id] and [artist_id]. *)
Theorem unmatched_play_not_written E :
  let w := world_of [test_song "S1"] [test_log "Other Song" "free" 1000000000] in
  let E1 := single_partition true in
  (run E (module_globals E) w).2 = Raise (NameError "user_cols")
  /\ written (run E (module_globals E) w).1 !! "out/songplays/songplays.parquet" = None
  /\ rows <$> written (run E1 (repaired E1 FullPrecision) w).1
              !! "out/songplays/songplays.parquet"
     = Some [[("start_time", VTimestamp 1000000000); ("user_id", VStr "1");
              ("level", VStr "free"); ("song_id", VNull); ("artist_id", VNull);
              ("session_id", VStr "1"); ("location", VStr "X"); ("user_agent", VStr "Y");
              ("year", VInt 1970); ("month", VInt 1); ("songplay_id", VInt 0)]].
Proof. vm_compute. done. Qed.

(** C1.  On two song records with one title and artist name and one play of
    that song, the play survives the filter of line 113, and the script as
    written raises at line 118 and writes no songplays table: the play is
    not in the output once, it is not in it at all. *)
Theorem matched_play_not_written E :
  let logs := [test_log "Test Song" "free" 1000000000] in
  let w := world_of [test_song "S1"; test_song "S2"] logs in
  length (log_rows E logs) = 1%nat
  /\ (run E (module_globals E) w).2 = Raise (NameError "user_cols")
  /\ written (run E (module_globals E) w).1 !! "out/songplays/songplays.parquet" = None.
Proof. vm_compute. done. Qed.

(** ** The tables of a run, from what it wrote *)

Lemma path_ne (o a b : string) : a <> b -> o +:+ a <> o +:+ b.
Proof. intros Hne Heq. by apply Hne, (append_inj_r o). Qed.

Lemma lookup_add_output_ne p q cols df (m : gmap string Output) :
  p <> q -> add_output p cols df m !! q = m !! q.
Proof. intros. unfold add_output. by rewrite lookup_insert_ne. Qed.

Lemma lookup_add_output p cols df (m : gmap string Output) :
  add_output p cols df m !! p = Some {| partition_by := cols; rows := df |}.
Proof. unfold add_output. by rewrite lookup_insert_eq. Qed.

Lemma wrote_time_table E G i o w w' out :
  Wrote E G i o w w' ->
  written w !! (o +:+ "time/time.parquet") = None ->
  written w' !! (o +:+ "time/time.parquet") = Some out ->
  exists lines fns df,
    files w !! (i +:+ "log_data/*/*/*.json") = Some lines /\
    load_name G "day" ≫= as_colfn = Ok (f_day fns) /\
    mapM (event_row G fns) (log_rows E lines) = Ok df /\
    time_table df = Ok (rows out).
Proof.
  assert (Hut : o +:+ "users/users.parquet" <> o +:+ "time/time.parquet")
    by (by apply path_ne).
  assert (Hst : o +:+ "songplays/songplays.parquet" <> o +:+ "time/time.parquet")
    by (by apply path_ne).
  intros HW Hfree Hout.
  assert (Htime : forall w1 w2 fns df,
             time_written E G i o w w1 w2 fns df ->
             written w2 !! (o +:+ "time/time.parquet") = Some out ->
             exists lines fns df,
               files w !! (i +:+ "log_data/*/*/*.json") = Some lines /\
               load_name G "day" ≫= as_colfn = Ok (f_day fns) /\
               mapM (event_row G fns) (log_rows E lines) = Ok df /\
               time_table df = Ok (rows out)).
  { intros w1 w2 fns df (lines & time & Hl & Hday & _ & _ & Hdf & Ht & _ & Hw2) Hlook.
    rewrite Hw2, lookup_add_output in Hlook. injection Hlook as <-.
    by exists lines, fns, df. }
  destruct HW as [|w1 Hu|w1 w2 fns df Hu Ht|w1 w2 w3 fns df Hu Ht Hs].
  - congruence.
  - destruct Hu as (? & ? & ? & _ & _ & _ & _ & Hw1).
    rewrite Hw1, lookup_add_output_ne in Hout by done. congruence.
  - by eapply Htime.
  - destruct Hs as (? & ? & ? & _ & _ & _ & _ & Hw3).
    rewrite Hw3, lookup_add_output_ne in Hout by done. by eapply Htime.
Qed.

Lemma wrote_songplays_table E G i o w w' out :
  Wrote E G i o w w' ->
  written w !! (o +:+ "songplays/songplays.parquet") = None ->
  written w' !! (o +:+ "songplays/songplays.parquet") = Some out ->
  exists lines fns df view song_df,
    files w !! (i +:+ "log_data/*/*/*.json") = Some lines /\
    load_name G "month" ≫= as_colfn = Ok (f_month fns) /\
    load_name G "year" ≫= as_colfn = Ok (f_year fns) /\
    mapM (event_row G fns) (log_rows E lines) = Ok df /\
    views w !! "song_data_df" = Some view /\
    select ["song_id"; "title"; "artist_id"; "artist_name"] view = Ok song_df /\
    songplays_table E df song_df = Ok (rows out).
Proof.
  assert (Hus : o +:+ "users/users.parquet" <> o +:+ "songplays/songplays.parquet")
    by (by apply path_ne).
  assert (Hts : o +:+ "time/time.parquet" <> o +:+ "songplays/songplays.parquet")
    by (by apply path_ne).
  intros HW Hfree Hout.
  destruct HW as [|w1 Hu|w1 w2 fns df Hu Ht|w1 w2 w3 fns df Hu Ht Hs].
  - congruence.
  - destruct Hu as (? & ? & ? & _ & _ & _ & _ & Hw1).
    rewrite Hw1, lookup_add_output_ne in Hout by done. congruence.
  - destruct Hu as (? & ? & ? & _ & _ & _ & _ & Hw1).
    destruct Ht as (? & ? & _ & _ & _ & _ & _ & _ & _ & Hw2).
    rewrite Hw2, lookup_add_output_ne, Hw1, lookup_add_output_ne in Hout by done.
    congruence.
  - destruct Ht as (lines & time & Hl & _ & Hmonth & Hyear & Hdf & _ & _ & _).
    destruct Hs as (view & song_df & songplays & Hview & Hsel & Hsp & _ & Hw3).
    rewrite Hw3, lookup_add_output in Hout. injection Hout as <-.
    by exists lines, fns, df, view, song_df.
Qed.

(** ** The time table *)



(** ** The songplays table *)

Lemma mapM_Ok {A B} (f : A -> Result B) (l : list A) (k : list B) :
  mapM f l = Ok k -> Forall2 (fun x y => f x = Ok y) l k.
Proof.
  revert k. induction l as [|x l IH]; intros k; simpl.
  - intros [= <-]. constructor.
  - unfold mbind, Result_bind. destruct (f x) as [y|] eqn:Hx; [|done].
    destruct (mapM f l) as [k'|]; [|done]. intros [= <-].
    constructor; [done|]. by apply IH.
Qed.

Lemma number_partition_rows {A} (p : nat) (part : list A) :
  (number_partition p part).*1 = part.
Proof.
  unfold number_partition. rewrite fmap_imap.
  rewrite (imap_ext _ (const id)) by done.
  by rewrite imap_const, list_fmap_id.
Qed.

Lemma numbered_rows {A} (g : nat -> nat) (parts : list (list A)) :
  (concat (imap (fun p => number_partition (g p)) parts)).*1 = concat parts.
Proof.
  revert g. induction parts as [|part parts IH]; intros g; simpl; [done|].
  rewrite fmap_app, number_partition_rows. f_equal. apply (IH (g ∘ S)).
Qed.

(** The identifiers are added to the rows as they are, in their order. *)
Lemma monotonically_increasing_id_rows {A} E (df : list A) :
  (monotonically_increasing_id E df).*1 = df.
Proof.
  unfold monotonically_increasing_id.
  rewrite (numbered_rows id). apply partitions_flat.
Qed.

Lemma with_songplay_id_rows E (df : list Row) :
  with_songplay_id E df = zip_with add_id df (monotonically_increasing_id E df).*2.
Proof.
  unfold with_songplay_id.
  rewrite <- (monotonically_increasing_id_rows E df) at 2.
  rewrite zip_with_fst_snd. apply list_fmap_ext. by intros ? [??].
Qed.

Lemma join_left_songplays (df : list Event.row) (song_df : list Row) :
  map (fun p => songplay p.1 p.2) (join_left conditions df song_df)
  = flat_map (fun l => songplays_of l song_df) df.
Proof.
  induction df as [|l df IH]; simpl; [done|].
  rewrite map_app, IH. f_equal.
  unfold songplays_of, matches.
  destruct (filter _ song_df) as [|s ms]; [done|].
  simpl. f_equal. by rewrite map_map.
Qed.

Lemma songplays_of_length (l : Event.row) (song_df : list Row) :
  length (songplays_of l song_df) = Nat.max 1 (length (matches l song_df)).
Proof.
  unfold songplays_of. destruct (matches l song_df) as [|s ms]; [done|].
  rewrite length_map. simpl. lia.
Qed.

(** A row of [df] that no song record matches gives one songplays row, with
    null [song_id] and [artist_id]. *)
Lemma songplays_of_unmatched (l : Event.row) (song_df : list Row) :
  (forall s, s ∈ song_df -> conditions l s = false) ->
  songplays_of l song_df = [songplay l None] /\
  get "song_id" (songplay l None) = VNull /\
  get "artist_id" (songplay l None) = VNull.
Proof.
  intros Hno. split; [|done].
  unfold songplays_of, matches.
  destruct (filter _ song_df) as [|s ms] eqn:Hf; [done|].
  assert (Hs : s ∈ filter (fun s => conditions l s = true) song_df) by (rewrite Hf; left).
  apply list_elem_of_filter in Hs as [Hc Hs]. rewrite (Hno s Hs) in Hc. done.
Qed.

(** The songplays table of line 154, row by row of [df]. *)
Lemma songplays_table_rows E (df : list Event.row) (song_df : list Row) :
  let joined := flat_map (fun l => songplays_of l song_df) df in
  songplays_table E df song_df
  = Ok (zip_with add_id joined (monotonically_increasing_id E joined).*2).
Proof.
  unfold songplays_table. rewrite selectExpr_songplays_cols. simpl.
  by rewrite with_songplay_id_rows, join_left_songplays.
Qed.

(** The identifier of a row depends on the partition the engine has put it
    in: the only row of a table has identifier 0 in the first partition and
    2^33 in the second. *)
Lemma songplay_id_by_partition (r : Row) :
  with_songplay_id (single_partition true) [r] = [add_id r 0] /\
  with_songplay_id second_partition [r] = [add_id r (2 ^ 33)].
Proof. done. Qed.

(** ** The derived columns in the module namespace *)


(** ** Each unbound name stops the run *)

(** Whatever else a namespace binds, without [day] the function does not
    get to the time table. *)
Lemma day_unbound E G i o w w' r :
  load_name G "day" = Raise (NameError "day") ->
  process_log_data E G i o w = (w', r) ->
  written w !! (o +:+ "time/time.parquet") = None ->
  written w' !! (o +:+ "time/time.parquet") = None.
Proof.
  intros Hday Hrun Hfree.
  apply process_log_data_wrote in Hrun as (_ & _ & HW).
  destruct (written w' !! _) as [out|] eqn:Hout; [|done].
  destruct (wrote_time_table _ _ _ _ _ _ _ HW Hfree Hout) as (_ & fns & _ & _ & Hd & _).
  by rewrite Hday in Hd.
Qed.

(** Without [to_date] no row of the filtered log dataset can be evaluated:
    a time table is written only when the dataset is empty. *)
Lemma to_date_unbound E G i o w w' r out :
  load_name G "to_date" = Raise (NameError "to_date") ->
  process_log_data E G i o w = (w', r) ->
  written w !! (o +:+ "time/time.parquet") = None ->
  written w' !! (o +:+ "time/time.parquet") = Some out ->
  rows out = [].
Proof.
  intros Hname Hrun Hfree Hout.
  apply process_log_data_wrote in Hrun as (_ & _ & HW).
  destruct (wrote_time_table _ _ _ _ _ _ _ HW Hfree Hout)
    as (lines & fns & df & _ & _ & Hdf & Ht).
  apply mapM_Ok in Hdf. destruct Hdf as [|x e ? ? Hx _].
  - by injection Ht.
  - unfold event_row, get_datetime in Hx. rewrite Hname in Hx.
    by destruct (get_timestamp _ _).
Qed.

(** * Further properties of the script *)

(** ** [process_song_data] *)

Lemma select_song_cols (df : list Song.row) :
  select song_cols df = Ok (map songs_row df).
Proof. reflexivity. Qed.

Lemma selectExpr_artist_cols (df : list Song.row) :
  selectExpr artist_cols df = Ok (map artists_row df).
Proof. reflexivity. Qed.

(** Every outcome of the song pipeline in the module namespace. *)
Lemma process_song_data_run E i o w :
  process_song_data E (module_globals E) i o w =
    match files w !! (i +:+ "song_data/*/*/*/*.json") with
    | None =>
        (w, Raise (AnalysisException
                     ("Path does not exist: " +:+ i +:+ "song_data/*/*/*/*.json")))
    | Some lines =>
        let df := song_rows E lines in
        match written w !! (o +:+ "songs/songs.parquet") with
        | Some _ =>
            (w, Raise (AnalysisException
                         ("path already exists: " +:+ o +:+ "songs/songs.parquet")))
        | None =>
            match written w !! (o +:+ "artists/artists.parquet") with
            | Some _ =>
                (with_songs o df w,
                 Raise (AnalysisException
                          ("path already exists: " +:+ o +:+ "artists/artists.parquet")))
            | None => (with_view df (with_artists o df (with_songs o df w)), Ok tt)
            end
        end
    end.
Proof.
  unfold process_song_data, mbind at 1 2, M_bind, read_json.
  change (require _ _ w) with (w, Ok tt). cbv beta iota.
  destruct (files w !! _) as [lines|]; [|done].
  unfold mbind at 1, M_bind, lift at 1. rewrite select_song_cols.
  unfold mbind at 1, M_bind, write_parquet at 1.
  destruct (written w !! (o +:+ "songs/songs.parquet")); [done|].
  unfold mbind at 1, M_bind, lift at 1. rewrite selectExpr_artist_cols.
  unfold mbind at 1, M_bind, write_parquet at 1. cbn [written].
  rewrite lookup_insert_ne by (by apply path_ne).
  destruct (written w !! (o +:+ "artists/artists.parquet")); done.
Qed.

(** X1.  When no file matches the song path, [process_song_data] raises the
    path error before anything is written or published: the world is as it
    was. *)
Theorem process_song_data_missing_input E i o w :
  files w !! (i +:+ "song_data/*/*/*/*.json") = None ->
  process_song_data E (module_globals E) i o w =
    (w, Raise (AnalysisException
                 ("Path does not exist: " +:+ i +:+ "song_data/*/*/*/*.json"))).
Proof. intros Hf. by rewrite process_song_data_run, Hf. Qed.

Lemma process_song_data_missing_input_witness :
  let E := single_partition true in
  let w := {| files := ∅; views := ∅; written := ∅ |} in
  files w !! ("in/" +:+ "song_data/*/*/*/*.json") = None /\
  process_song_data E (module_globals E) "in/" "out/" w =
    (w, Raise (AnalysisException "Path does not exist: in/song_data/*/*/*/*.json")).
Proof.
  intros E w.
  assert (H : files w !! ("in/" +:+ "song_data/*/*/*/*.json") = None) by reflexivity.
  split; [exact H|]. exact (process_song_data_missing_input E "in/" "out/" w H).
Defined.



(** X3.  The two writes are not atomic: when the artists path exists and
    the songs path does not, [process_song_data] writes the songs table and
    then raises at the artists write; the artists output stays as it was
    and [song_data_df] is not published. *)
Theorem process_song_data_partial_output E i o w lines old :
  files w !! (i +:+ "song_data/*/*/*/*.json") = Some lines ->
  written w !! (o +:+ "songs/songs.parquet") = None ->
  written w !! (o +:+ "artists/artists.parquet") = Some old ->
  exists w',
    process_song_data E (module_globals E) i o w =
      (w', Raise (AnalysisException
                    ("path already exists: " +:+ o +:+ "artists/artists.parquet"))) /\
    written w' !! (o +:+ "songs/songs.parquet")
      = Some {| partition_by := ["year"; "artist_id"];
                rows := map songs_row (song_rows E lines) |} /\
    written w' !! (o +:+ "artists/artists.parquet") = Some old /\
    views w' = views w.
Proof.
  intros Hf Hs Ha. eexists. split.
  { rewrite process_song_data_run, Hf. cbv zeta. rewrite Hs, Ha. reflexivity. }
  cbn [written views with_songs]. repeat split.
  - apply lookup_add_output.
  - by rewrite lookup_add_output_ne by (by apply path_ne).
Qed.

Lemma process_song_data_partial_output_witness :
  let E := single_partition true in
  let lines := [test_song "S1"] in
  let old := {| partition_by := []; rows := [] |} in
  let w := {| files := files (world_of lines []); views := ∅;
              written := {["out/artists/artists.parquet" := old]} |} in
  files w !! ("in/" +:+ "song_data/*/*/*/*.json") = Some lines /\
  written w !! ("out/" +:+ "songs/songs.parquet") = None /\
  written w !! ("out/" +:+ "artists/artists.parquet") = Some old /\
  exists w',
    (process_song_data E (module_globals E) "in/" "out/" w).1 = w' /\
    views w' = views w.
Proof.
  intros E lines old w.
  assert (H1 : files w !! ("in/" +:+ "song_data/*/*/*/*.json") = Some lines) by reflexivity.
  assert (H2 : written w !! ("out/" +:+ "songs/songs.parquet") = None) by reflexivity.
  assert (H3 : written w !! ("out/" +:+ "artists/artists.parquet") = Some old) by reflexivity.
  split; [exact H1|]. split; [exact H2|]. split; [exact H3|].
  destruct (process_song_data_partial_output E "in/" "out/" w lines old H1 H2 H3)
    as (w' & Hrun & _ & _ & Hv).
  exists w'. split; [by rewrite Hrun|exact Hv].
Defined.

(** X4.  The song pipeline cannot be run twice on one output location:
    after a run that returned normally, a second run from the world it left
    raises at the songs write and changes nothing. *)
Theorem process_song_data_rerun E i o w w' :
  process_song_data E (module_globals E) i o w = (w', Ok tt) ->
  process_song_data E (module_globals E) i o w' =
    (w', Raise (AnalysisException
                  ("path already exists: " +:+ o +:+ "songs/songs.parquet"))).
Proof.
  rewrite !process_song_data_run.
  destruct (files w !! _) as [lines|] eqn:Hf; [|done]. cbv zeta.
  destruct (written w !! (o +:+ "songs/songs.parquet")); [done|].
  destruct (written w !! (o +:+ "artists/artists.parquet")); [done|].
  intros [= <-]. cbn [files written with_view with_artists with_songs]. rewrite Hf.
  rewrite lookup_add_output_ne by (by apply path_ne).
  by rewrite lookup_add_output.
Qed.

Lemma process_song_data_rerun_witness :
  let E := single_partition true in
  let w := world_of [test_song "S1"] [] in
  let w' := (process_song_data E (module_globals E) "in/" "out/" w).1 in
  process_song_data E (module_globals E) "in/" "out/" w = (w', Ok tt) /\
  process_song_data E (module_globals E) "in/" "out/" w' =
    (w', Raise (AnalysisException "path already exists: out/songs/songs.parquet")).
Proof.
  intros E w w'.
  assert (H : process_song_data E (module_globals E) "in/" "out/" w = (w', Ok tt))
    by (by vm_compute).
  split; [exact H|]. exact (process_song_data_rerun E "in/" "out/" w w' H).
Defined.

(** ** [process_log_data]: the filtered dataset and the users table *)

Lemma sql_eq_true (a b : Value) : sql_eq a b = true <-> a = b /\ a <> VNull.
Proof.
  unfold sql_eq.
  destruct a, b; try rewrite bool_decide_eq_true; split; try done;
    try (by intros [? ?]); by intros ->.
Qed.

Lemma log_rows_elem E lines r :
  r ∈ log_rows E lines <->
  r ∈ map (read_line E Log.log_schema Log.of_cells) lines /\ Log.page r = VStr "NextSong".
Proof.
  unfold log_rows, next_song.
  rewrite list_elem_of_filter, dropDuplicates_same_rows, sql_eq_true.
  split; [by intros [[Hp _] Hr]|]. intros [Hr Hp]. rewrite Hp. done.
Qed.

Lemma wrote_users_table E G i o w w' out :
  Wrote E G i o w w' ->
  written w !! (o +:+ "users/users.parquet") = None ->
  written w' !! (o +:+ "users/users.parquet") = Some out ->
  exists lines cols,
    files w !! (i +:+ "log_data/*/*/*.json") = Some lines /\
    load_name G "user_cols" ≫= as_columns = Ok cols /\
    users_table cols (log_rows E lines) = Ok (rows out).
Proof.
  assert (Htu : o +:+ "time/time.parquet" <> o +:+ "users/users.parquet")
    by (by apply path_ne).
  assert (Hsu : o +:+ "songplays/songplays.parquet" <> o +:+ "users/users.parquet")
    by (by apply path_ne).
  intros HW Hfree Hout.
  assert (Hu : forall w1, users_written E G i o w w1 ->
             written w1 !! (o +:+ "users/users.parquet") = Some out ->
             exists lines cols,
               files w !! (i +:+ "log_data/*/*/*.json") = Some lines /\
               load_name G "user_cols" ≫= as_columns = Ok cols /\
               users_table cols (log_rows E lines) = Ok (rows out)).
  { intros w1 (lines & cols & users & Hl & Hc & Hu & _ & Hw1) Hlook.
    rewrite Hw1, lookup_add_output in Hlook. injection Hlook as <-.
    by exists lines, cols. }
  destruct HW as [|w1 Hu1|w1 w2 fns df Hu1 Ht|w1 w2 w3 fns df Hu1 Ht Hs].
  - congruence.
  - by eapply Hu.
  - destruct Ht as (? & ? & _ & _ & _ & _ & _ & _ & _ & Hw2).
    rewrite Hw2, lookup_add_output_ne in Hout by done. by eapply Hu.
  - destruct Ht as (? & ? & _ & _ & _ & _ & _ & _ & _ & Hw2).
    destruct Hs as (? & ? & ? & _ & _ & _ & _ & Hw3).
    rewrite Hw3, lookup_add_output_ne, Hw2, lookup_add_output_ne in Hout by done.
    by eapply Hu.
Qed.

(** X8.  Records of other pages contribute nothing: when no line of the log
    files reads as a NextSong row, whatever [process_log_data] writes at the
    users, time and songplays paths is an empty table. *)
Theorem other_pages_give_empty_tables E G i o w w' r lines :
  process_log_data E G i o w = (w', r) ->
  files w !! (i +:+ "log_data/*/*/*.json") = Some lines ->
  Forall (fun l => Log.page (read_line E Log.log_schema Log.of_cells l) <> VStr "NextSong")
         lines ->
  written w !! (o +:+ "users/users.parquet") = None ->
  written w !! (o +:+ "time/time.parquet") = None ->
  written w !! (o +:+ "songplays/songplays.parquet") = None ->
  default [] (rows <$> written w' !! (o +:+ "users/users.parquet")) = [] /\
  default [] (rows <$> written w' !! (o +:+ "time/time.parquet")) = [] /\
  default [] (rows <$> written w' !! (o +:+ "songplays/songplays.parquet")) = [].
Proof.
  intros Hrun Hl Hpages Hu Ht Hs.
  assert (Hempty : log_rows E lines = []).
  { apply elem_of_nil_inv. intros x Hx.
    apply log_rows_elem in Hx as [Hx Hp].
    apply list_elem_of_fmap in Hx as (l & -> & Hin).
    rewrite Forall_forall in Hpages. by apply (Hpages l). }
  apply process_log_data_wrote in Hrun as (_ & _ & HW).
  repeat split.
  - destruct (written w' !! (o +:+ "users/users.parquet")) as [out|] eqn:Hout; [simpl|done].
    destruct (wrote_users_table _ _ _ _ _ _ _ HW Hu Hout) as (lines' & cols & Hl' & _ & Hut).
    rewrite Hl in Hl'. injection Hl' as <-. rewrite Hempty in Hut.
    unfold users_table, selectExpr, mbind, Result_bind in Hut.
    destruct (mapM resolve cols); [|done]. by injection Hut as <-.
  - destruct (written w' !! (o +:+ "time/time.parquet")) as [out|] eqn:Hout; [simpl|done].
    destruct (wrote_time_table _ _ _ _ _ _ _ HW Ht Hout)
      as (lines' & fns & df & Hl' & _ & Hdf & Htt).
    rewrite Hl in Hl'. injection Hl' as <-. rewrite Hempty in Hdf.
    injection Hdf as <-. by injection Htt as <-.
  - destruct (written w' !! (o +:+ "songplays/songplays.parquet")) as [out|] eqn:Hout;
      [simpl|done].
    destruct (wrote_songplays_table _ _ _ _ _ _ _ HW Hs Hout)
      as (lines' & fns & df & view & song_df & Hl' & _ & _ & Hdf & _ & _ & Hsp).
    rewrite Hl in Hl'. injection Hl' as <-. rewrite Hempty in Hdf.
    injection Hdf as <-. rewrite songplays_table_rows in Hsp. simpl in Hsp.
    by injection Hsp as <-.
Qed.

Lemma other_pages_give_empty_tables_witness :
  let E := single_partition true in
  let G := repaired E FullPrecision in
  let lines := [login_log] in
  let w := world_of [test_song "S1"] lines in
  let w1 := (process_song_data E G "in/" "out/" w).1 in
  let w2 := (process_log_data E G "in/" "out/" w1).1 in
  files w1 !! ("in/" +:+ "log_data/*/*/*.json") = Some lines /\
  Forall (fun l => Log.page (read_line E Log.log_schema Log.of_cells l) <> VStr "NextSong")
         lines /\
  written w1 !! ("out/" +:+ "songplays/songplays.parquet") = None /\
  written w2 !! ("out/" +:+ "songplays/songplays.parquet")
    = Some {| partition_by := ["year"; "month"]; rows := [] |} /\
  default [] (rows <$> written w2 !! ("out/" +:+ "songplays/songplays.parquet")) = [].
Proof.
  intros E G lines w w1 w2.
  assert (H1 : files w1 !! ("in/" +:+ "log_data/*/*/*.json") = Some lines) by (by vm_compute).
  assert (H2 : Forall (fun l => Log.page (read_line E Log.log_schema Log.of_cells l)
                                <> VStr "NextSong") lines)
    by (repeat constructor; by vm_compute).
  assert (H3 : written w1 !! ("out/" +:+ "users/users.parquet") = None) by (by vm_compute).
  assert (H4 : written w1 !! ("out/" +:+ "time/time.parquet") = None) by (by vm_compute).
  assert (H5 : written w1 !! ("out/" +:+ "songplays/songplays.parquet") = None)
    by (by vm_compute).
  split; [exact H1|]. split; [exact H2|]. split; [exact H5|]. split; [by vm_compute|].
  exact (proj2 (proj2 (other_pages_give_empty_tables E G "in/" "out/" w1 w2
                         (process_log_data E G "in/" "out/" w1).2 lines
                         (surjective_pairing _) H1 H2 H3 H4 H5))).
Defined.

(** ** [process_log_data]: the join *)

Lemma conditions_true (l : Event.row) (s : Row) :
  conditions l s = true ->
  Log.song (Event.log l) = get "title" s /\ Log.artist (Event.log l) = get "artist_name" s.
Proof.
  unfold conditions. rewrite andb_true_iff, !sql_eq_true. by intros [[? _] [? _]].
Qed.

Lemma matches_unique_key (l : Event.row) (song_df : list Row) :
  NoDup (map (fun s => (get "title" s, get "artist_name" s)) song_df) ->
  (length (matches l song_df) <= 1)%nat.
Proof.
  unfold matches. induction song_df as [|s song_df IH]; simpl; [lia|].
  intros [Hs Hnd]%NoDup_cons. specialize (IH Hnd).
  rewrite filter_cons. case_decide as Hc; [|done].
  destruct (filter _ song_df) as [|s' ms] eqn:Hf; [simpl; lia|]. exfalso.
  assert (Hs' : s' ∈ filter (fun s => conditions l s = true) song_df) by (rewrite Hf; left).
  apply list_elem_of_filter in Hs' as [Hc' Hin].
  apply conditions_true in Hc as (Ht & Ha).
  apply conditions_true in Hc' as (Ht' & Ha').
  apply Hs, list_elem_of_fmap. exists s'. split; [|done]. congruence.
Qed.

(** X10.  When no two rows of [song_df] have the same title and artist
    name, the songplays table of line 154 has as many rows as the log
    dataset, and, up to the order of rows, one for every row of it: the
    left join then keeps the cardinality of its left side. *)
Theorem songplays_one_row_per_play E (df : list Event.row) (song_df : list Row) :
  NoDup (map (fun s => (get "title" s, get "artist_name" s)) song_df) ->
  exists songplays,
    songplays_table E df song_df = Ok songplays /\
    length songplays = length df /\
    map (fun row => (get "start_time" row, get "user_id" row, get "session_id" row))
        songplays
    ≡ₚ map (fun l => (VTimestamp (Event.start_time l), Log.userId (Event.log l),
                      Log.sessionId (Event.log l))) df.
Proof.
  intros Hnd. eexists. split; [apply songplays_table_rows|]. cbv zeta.
  set (ids := (monotonically_increasing_id E _).*2).
  assert (Hlen : length ids = length (flat_map (fun l => songplays_of l song_df) df)).
  { unfold ids. rewrite length_fmap.
    rewrite <- (monotonically_increasing_id_rows E (flat_map _ df)) at 2.
    by rewrite length_fmap. }
  clearbody ids. revert ids Hlen.
  induction df as [|l df IH]; intros ids Hlen.
  - by destruct ids.
  - assert (exists s, songplays_of l song_df = [songplay l s]) as [s Hrow].
    { pose proof (matches_unique_key l song_df Hnd) as Hone. unfold songplays_of.
      destruct (matches l song_df) as [|s [|s' ms]]; simpl in Hone; [by eexists..|lia]. }
    cbn [flat_map] in *. rewrite Hrow in *. cbn [app length] in Hlen.
    destruct ids as [|id ids]; [done|]. injection Hlen as Hlen.
    destruct (IH ids Hlen) as [IH1 IH2]. cbn [app zip_with length map].
    split; [by rewrite IH1|]. by constructor.
Qed.

Lemma songplays_one_row_per_play_witness :
  let E := single_partition true in
  let song_df := [[("song_id", VStr "S1"); ("title", VStr "T1"); ("artist_id", VStr "A1");
                   ("artist_name", VStr "N")];
                  [("song_id", VStr "S2"); ("title", VStr "T2"); ("artist_id", VStr "A1");
                   ("artist_name", VStr "N")]] in
  let play := {| Event.log := Log.of_cells (fun c => if String.eqb c "song" then VStr "T2"
                                                     else if String.eqb c "artist" then VStr "N"
                                                     else VNull);
                 Event.timestamp := 0; Event.start_time := 0; Event.hour := 0;
                 Event.day := 1; Event.week := 1; Event.month := 1; Event.year := 1970;
                 Event.weekday := 5 |} in
  NoDup (map (fun s => (get "title" s, get "artist_name" s)) song_df) /\
  exists songplays,
    songplays_table E [play] song_df = Ok songplays /\ length songplays = 1%nat.
Proof.
  intros E song_df play.
  assert (H : NoDup (map (fun s => (get "title" s, get "artist_name" s)) song_df))
    by by_computation.
  split; [exact H|].
  destruct (songplays_one_row_per_play E [play] song_df H) as (sp & Hsp & Hlen & _).
  by exists sp.
Defined.

(** ** [process_log_data]: the outputs it leaves alone *)

(** X12.  [process_log_data] needs the view that [process_song_data]
    publishes: run in a session without [song_data_df], in whatever
    namespace, it writes no songplays table. *)
Theorem songplays_need_the_view E G i o w w' r :
  views w !! "song_data_df" = None ->
  process_log_data E G i o w = (w', r) ->
  written w' !! (o +:+ "songplays/songplays.parquet")
  = written w !! (o +:+ "songplays/songplays.parquet").
Proof.
  assert (Hus : o +:+ "users/users.parquet" <> o +:+ "songplays/songplays.parquet")
    by (by apply path_ne).
  assert (Hts : o +:+ "time/time.parquet" <> o +:+ "songplays/songplays.parquet")
    by (by apply path_ne).
  intros Hview Hrun.
  apply process_log_data_wrote in Hrun as (_ & _ & HW).
  destruct HW as [|w1 Hu|w1 w2 fns df Hu Ht|w1 w2 w3 fns df Hu Ht Hs].
  - done.
  - destruct Hu as (? & ? & ? & _ & _ & _ & _ & Hw1).
    by rewrite Hw1, lookup_add_output_ne.
  - destruct Hu as (? & ? & ? & _ & _ & _ & _ & Hw1).
    destruct Ht as (? & ? & _ & _ & _ & _ & _ & _ & _ & Hw2).
    by rewrite Hw2, lookup_add_output_ne, Hw1, lookup_add_output_ne.
  - destruct Hs as (view & ? & ? & Hv & _). congruence.
Qed.

Lemma songplays_need_the_view_witness :
  let E := single_partition true in
  let G := repaired E FullPrecision in
  let w := world_of [] [test_log "Test Song" "free" 1000] in
  let w' := (process_log_data E G "in/" "out/" w).1 in
  views w !! "song_data_df" = None /\
  process_log_data E G "in/" "out/" w
    = (w', Raise (AnalysisException "Table or view not found: song_data_df")) /\
  partition_by <$> written w' !! "out/time/time.parquet" = Some ["year"; "month"] /\
  written w' !! ("out/" +:+ "songplays/songplays.parquet")
  = written w !! ("out/" +:+ "songplays/songplays.parquet").
Proof.
  intros E G w w'.
  assert (H : views w !! "song_data_df" = None) by reflexivity.
  split; [exact H|]. split; [by vm_compute|]. split; [by vm_compute|].
  exact (songplays_need_the_view E G "in/" "out/" w w'
           (process_log_data E G "in/" "out/" w).2 H (surjective_pairing _)).
Defined.

Lemma add_output_fresh p cols df (m : gmap string Output) :
  m !! p = None -> m ⊆ add_output p cols df m.
Proof. intros. by apply insert_subseteq. Qed.

Lemma wrote_subseteq E G i o w w' : Wrote E G i o w w' -> written w ⊆ written w'.
Proof.
  intros HW.
  assert (Hu : forall w1, users_written E G i o w w1 -> written w ⊆ written w1).
  { intros w1 (? & ? & ? & _ & _ & _ & Hfree & ->). by apply add_output_fresh. }
  assert (Ht : forall w1 w2 fns df, time_written E G i o w w1 w2 fns df ->
                                    written w1 ⊆ written w2).
  { intros w1 w2 fns df (? & ? & _ & _ & _ & _ & _ & _ & Hfree & ->).
    by apply add_output_fresh. }
  destruct HW as [|w1 Hu1|w1 w2 fns df Hu1 Ht1|w1 w2 w3 fns df Hu1 Ht1 Hs].
  - done.
  - by apply Hu.
  - etrans; [by apply Hu|]. by eapply Ht.
  - destruct Hs as (? & ? & ? & _ & _ & _ & Hfree & ->).
    etrans; [by apply Hu|]. etrans; [by eapply Ht|]. by apply add_output_fresh.
Qed.

(** X13.  In whatever namespace it runs and however it ends,
    [process_log_data] leaves the input files and the views of the session
    as they were and keeps every output that was there: it adds tables and
    never replaces or removes one. *)
Theorem process_log_data_keeps_outputs E G i o w w' r :
  process_log_data E G i o w = (w', r) ->
  files w' = files w /\ views w' = views w /\ written w ⊆ written w'.
Proof.
  intros Hrun. apply process_log_data_wrote in Hrun as (Hf & Hv & HW).
  split; [done|]. split; [done|]. by eapply wrote_subseteq.
Qed.

(** X14.  When the users path exists, [process_log_data] changes nothing:
    in whatever namespace, the run ends in the world it started in, as the
    users write comes first and refuses an existing path. *)
Theorem process_log_data_users_path_taken E G i o w w' r old :
  written w !! (o +:+ "users/users.parquet") = Some old ->
  process_log_data E G i o w = (w', r) ->
  w' = w /\ r <> Ok tt.
Proof.
  intros Hold Hrun.
  assert (Hw : w' = w).
  { apply process_log_data_wrote in Hrun as (_ & _ & HW).
    destruct HW as [|w1 Hu|w1 w2 fns df Hu _|w1 w2 w3 fns df Hu _ _]; [done|..];
      destruct Hu as (? & ? & ? & _ & _ & _ & Hfree & _); congruence. }
  split; [done|]. subst w'. intros Hr. subst r.
  unfold process_log_data in Hrun.
  apply bind_run in Hrun as [(? & _ & [=]) | (w0 & u & Hm & Hrun)].
  apply require_run in Hm. subst w0.
  apply bind_run in Hrun as [(? & _ & [=]) | (w0 & raw & Hm & Hrun)].
  apply read_json_run in Hm as [-> _].
  apply bind_run in Hrun as [(? & _ & [=]) | (w0 & cols & Hm & Hrun)].
  apply lift_run in Hm as [-> _].
  apply bind_run in Hrun as [(? & _ & [=]) | (w0 & users & Hm & Hrun)].
  apply lift_run in Hm as [-> _].
  apply bind_run in Hrun as [(? & _ & [=]) | (w1 & u1 & Hwu & Hrun)].
  apply write_parquet_ok in Hwu as (Hfree & _). congruence.
Qed.

Lemma process_log_data_users_path_taken_witness :
  let E := single_partition true in
  let G := repaired E FullPrecision in
  let old := {| partition_by := []; rows := [] |} in
  let w := {| files := files (world_of [] [test_log "Test Song" "free" 1000]); views := ∅;
              written := {["out/users/users.parquet" := old]} |} in
  written w !! ("out/" +:+ "users/users.parquet") = Some old /\
  (process_log_data E G "in/" "out/" w).1 = w.
Proof.
  intros E G old w.
  assert (H : written w !! ("out/" +:+ "users/users.parquet") = Some old) by reflexivity.
  split; [exact H|].
  exact (proj1 (process_log_data_users_path_taken E G "in/" "out/" w
                  (process_log_data E G "in/" "out/" w).1
                  (process_log_data E G "in/" "out/" w).2 old H (surjective_pairing _))).
Defined.

Lemma process_log_data_keeps_outputs_witness :
  let E := single_partition true in
  let G := repaired E FullPrecision in
  let old := {| partition_by := []; rows := [] |} in
  let w := {| files := files (world_of [] [test_log "Test Song" "free" 1000]); views := ∅;
              written := {["out/time/time.parquet" := old]} |} in
  let w' := (process_log_data E G "in/" "out/" w).1 in
  process_log_data E G "in/" "out/" w
    = (w', Raise (AnalysisException "path already exists: out/time/time.parquet")) /\
  written w' !! "out/time/time.parquet" = Some old /\
  written w ⊆ written w'.
Proof.
  intros E G old w w'.
  assert (H : process_log_data E G "in/" "out/" w
              = (w', Raise (AnalysisException "path already exists: out/time/time.parquet")))
    by (by vm_compute).
  split; [exact H|]. split; [by vm_compute|].
  exact (proj2 (proj2 (process_log_data_keeps_outputs E G "in/" "out/" w w' _ H))).
Defined.

(** ** [main] *)

(** X15.  [main] (lines 160-166), called in the module's namespace with the
    statement of line 132 read as the call it opens, never returns
    normally: it runs the song pipeline, and when that has returned the
    log pipeline raises and adds nothing, so that the world [main] leaves
    is the one [process_song_data] left.  Run as a script, the file is
    rejected for line 132 and [main] is not reached. *)
Theorem main_stops_in_log_pipeline E i o w :
  let after_songs := process_song_data E (module_globals E) i o w in
  main E (module_globals E) i o w =
    (after_songs.1,
     Raise (match after_songs.2 with
            | Raise e => e
            | Ok _ =>
                match files after_songs.1 !! (i +:+ "log_data/*/*/*.json") with
                | Some _ => NameError "user_cols"
                | None => AnalysisException
                            ("Path does not exist: " +:+ i +:+ "log_data/*/*/*.json")
                end
            end))
  /\ etl E i o w = (w, Raise (SyntaxError 132)).
Proof.
  split; [|done].
  unfold main, mbind at 1 2, M_bind.
  change (require _ _ w) with (w, Ok tt). cbv beta iota.
  destruct (process_song_data E (module_globals E) i o w) as [w1 [[]|e]]; [|done].
  unfold mbind at 1, M_bind.
  change (require (module_globals E) ["process_log_data"] w1) with (w1, Ok tt).
  cbv beta iota. by rewrite process_log_data_raises.
Qed.

(** ** The reach of the declared type of [ts] *)

Lemma read_ts_range E (l : JsonLine) :
  Log.ts (read_line E Log.log_schema Log.of_cells l) = VNull \/
  exists z, Log.ts (read_line E Log.log_schema Log.of_cells l) = VInt z /\
            int_min <= z <= int_max.
Proof.
  destruct l as [o|]; [|by left]. rewrite read_line_object.
  destruct (_ && _); [by left|]. simpl. unfold cell. simpl.
  destruct (o !! "ts") as [j|]; [|by left].
  destruct j as [|s|z| | |]; simpl; try (by left).
  - destruct s; [destruct (spark3 E)|]; by left.
  - destruct (int_min <=? z) eqn:H1; destruct (z <=? int_max) eqn:H2; simpl; try (by left).
    right. exists z. split; [done|]. lia.
Qed.

Lemma year_of_int32 E (ms : Z) :
  -86400 <= tz_offset E <= 86400 ->
  int_min <= ms <= int_max ->
  Calendar.year E ms = 1969 \/ Calendar.year E ms = 1970.
Proof.
  unfold int_min, int_max. intros Htz Hms.
  unfold Calendar.year, Calendar.local_day, Calendar.local_seconds.
  set (d := (ms / 1000 + tz_offset E) / 86400).
  assert (Hd : -26 <= d <= 25) by (unfold d; Z.div_mod_to_equations; lia).
  clearbody d. unfold Calendar.civil_from_days. cbv zeta.
  set (z := d + 719468).
  assert (Hera : z / 146097 = 4) by (unfold z; Z.div_mod_to_equations; lia).
  rewrite Hera. set (doe := z - 4 * 146097).
  assert (Hdoe : 135054 <= doe <= 135105) by (unfold doe, z; lia).
  clearbody doe.
  set (yoe := (doe - doe / 1460 + doe / 36524 - doe / 146096) / 365).
  assert (Hyoe : yoe = 369) by (unfold yoe; Z.div_mod_to_equations; lia).
  clearbody yoe. subst yoe.
  change (365 * 369 + 369 / 4 - 369 / 100) with 134774.
  set (mp := (5 * (doe - 134774) + 2) / 153).
  assert (Hmp : 9 <= mp <= 10) by (unfold mp; Z.div_mod_to_equations; lia).
  clearbody mp. simpl.
  destruct (mp <? 10) eqn:H1.
  - apply Z.ltb_lt in H1. replace (mp + 3 <=? 2) with false; [by left|].
    symmetry. apply Z.leb_gt. lia.
  - apply Z.ltb_ge in H1. replace (mp - 9 <=? 2) with true; [by right|].
    symmetry. apply Z.leb_le. lia.
Qed.

(** X17.  Because [log_schema] declares [ts] as [IntegerType] (line 103),
    the [ts] cell of every log row the reader gives is null or an integer
    of 32 bits.  The timestamp that line 124 makes of such a cell is an
    instant within 2^31 milliseconds of the epoch, and with the session
    zone within a day of UTC the year that the imported [year] gives for it
    is 1969 or 1970: no later year can reach the [year] column. *)
Theorem loaded_ts_within_int32 E (l : JsonLine) :
  -86400 <= tz_offset E <= 86400 ->
  Log.ts (read_line E Log.log_schema Log.of_cells l) = VNull \/
  exists z,
    Log.ts (read_line E Log.log_schema Log.of_cells l) = VInt z /\
    - 2 ^ 31 <= z < 2 ^ 31 /\
    get_timestamp (module_globals E) (VInt z) = Ok z /\
    (Calendar.year E z = 1969 \/ Calendar.year E z = 1970).
Proof.
  intros Htz. destruct (read_ts_range E l) as [Hnull|(z & Hz & Hrange)]; [by left|].
  right. exists z. split; [done|].
  split; [unfold int_min, int_max in Hrange; lia|].
  split; [done|]. by apply year_of_int32.
Qed.

Lemma loaded_ts_within_int32_witness :
  let E := single_partition true in
  let l := test_log "Test Song" "free" 1000000000 in
  -86400 <= tz_offset E <= 86400 /\
  Log.ts (read_line E Log.log_schema Log.of_cells l) = VInt 1000000000 /\
  Calendar.year E 1000000000 = 1970 /\
  (Log.ts (read_line E Log.log_schema Log.of_cells l) = VNull \/
   exists z,
     Log.ts (read_line E Log.log_schema Log.of_cells l) = VInt z /\
     - 2 ^ 31 <= z < 2 ^ 31 /\
     get_timestamp (module_globals E) (VInt z) = Ok z /\
     (Calendar.year E z = 1969 \/ Calendar.year E z = 1970)).
Proof.
  intros E l.
  assert (H : -86400 <= tz_offset E <= 86400) by (by vm_compute).
  split; [exact H|]. split; [by vm_compute|]. split; [by vm_compute|].
  exact (loaded_ts_within_int32 E l H).
Defined.

(** ** A play without [ts] *)

Lemma event_row_null_ts G fns x e : Log.ts x = VNull -> event_row G fns x <> Ok e.
Proof.
  intros Hts. unfold event_row, get_timestamp, mbind, Result_bind. rewrite Hts.
  by destruct (load_name G "datetime").
Qed.

(** X18.  One play without a timestamp stops the log pipeline: when a row
    of the filtered log dataset has a null [ts], the function of line 124
    cannot be evaluated on it, and [process_log_data], in whatever
    namespace, writes neither the time nor the songplays table. *)
Theorem null_ts_stops_the_run E G i o w w' r lines x :
  files w !! (i +:+ "log_data/*/*/*.json") = Some lines ->
  x ∈ log_rows E lines ->
  Log.ts x = VNull ->
  process_log_data E G i o w = (w', r) ->
  written w' !! (o +:+ "time/time.parquet") = written w !! (o +:+ "time/time.parquet") /\
  written w' !! (o +:+ "songplays/songplays.parquet")
  = written w !! (o +:+ "songplays/songplays.parquet").
Proof.
  intros Hl Hx Hts Hrun.
  apply process_log_data_wrote in Hrun as (_ & _ & HW).
  assert (Hno : forall fns df, mapM (event_row G fns) (log_rows E lines) <> Ok df).
  { intros fns df Hdf%mapM_Ok. clear -Hdf Hx Hts.
    induction Hdf as [|y e ? ? He _ IH]; [by apply elem_of_nil in Hx|].
    apply elem_of_cons in Hx as [->|Hx]; [by eapply event_row_null_ts|by apply IH]. }
  pose proof (wrote_subseteq _ _ _ _ _ _ HW) as Hsub.
  split.
  - destruct (written w !! (o +:+ "time/time.parquet")) as [old|] eqn:Hold.
    + by eapply lookup_weaken.
    + destruct (written w' !! (o +:+ "time/time.parquet")) as [out|] eqn:Hout; [|done].
      destruct (wrote_time_table _ _ _ _ _ _ _ HW Hold Hout)
        as (lines' & fns & df & Hl' & _ & Hdf & _).
      rewrite Hl in Hl'. injection Hl' as <-. by apply Hno in Hdf.
  - destruct (written w !! (o +:+ "songplays/songplays.parquet")) as [old|] eqn:Hold.
    + by eapply lookup_weaken.
    + destruct (written w' !! (o +:+ "songplays/songplays.parquet")) as [out|] eqn:Hout;
        [|done].
      destruct (wrote_songplays_table _ _ _ _ _ _ _ HW Hold Hout)
        as (lines' & fns & df & ? & ? & Hl' & _ & _ & Hdf & _).
      rewrite Hl in Hl'. injection Hl' as <-. by apply Hno in Hdf.
Qed.

Lemma null_ts_stops_the_run_witness :
  let E := single_partition true in
  let G := repaired E FullPrecision in
  let lines := [test_log "Test Song" "free" 1000; test_log "Test Song" "free" 1000000000000] in
  let w := world_of [test_song "S1"] lines in
  let w1 := (process_song_data E G "in/" "out/" w).1 in
  let w2 := (process_log_data E G "in/" "out/" w1).1 in
  let x := read_line E Log.log_schema Log.of_cells (test_log "Test Song" "free" 1000000000000) in
  files w1 !! ("in/" +:+ "log_data/*/*/*.json") = Some lines /\
  x ∈ log_rows E lines /\
  Log.ts x = VNull /\
  partition_by <$> written w2 !! "out/users/users.parquet" = Some [] /\
  written w2 !! ("out/" +:+ "time/time.parquet") = None.
Proof.
  intros E G lines w w1 w2 x.
  assert (H1 : files w1 !! ("in/" +:+ "log_data/*/*/*.json") = Some lines) by (by vm_compute).
  assert (H2 : x ∈ log_rows E lines) by by_computation.
  assert (H3 : Log.ts x = VNull) by (by vm_compute).
  split; [exact H1|]. split; [exact H2|]. split; [exact H3|]. split; [by vm_compute|].
  rewrite (proj1 (null_ts_stops_the_run E G "in/" "out/" w1 w2
                    (process_log_data E G "in/" "out/" w1).2 lines x H1 H2 H3
                    (surjective_pairing _))).
  by vm_compute.
Defined.
